(** * Ray AIR example notebooks, requirements list and BUILD manifest

    A shallow embedding of
      - doc/source/ray-air/examples/sklearn_example.ipynb
        ([prepare_data], [train_sklearn], [predict_sklearn]),
      - doc/source/ray-air/examples/upload_to_wandb.ipynb
        ([get_train_dataset], [train_model]),
      - the requirements list and the [py_test] manifest that follow the
        first notebook in the same source file.

    The notebooks are glue code over pandas, scikit-learn and Ray AIR.  The
    pandas operations the notebooks perform on their own data are modelled
    concretely, with the exceptions pandas raises; the calls whose answer the
    notebooks cannot know (the bundled data set, the random split, fitting,
    predicting) are fields of a [Framework] the development is generic in. *)

From Stdlib Require Import List String Ascii Bool Arith ZArith QArith Lia.
From Stdlib Require Import SpecFloat.
Import ListNotations.

Local Open Scope string_scope.
Local Open Scope list_scope.
Local Open Scope nat_scope.

(* ===================================================================== *)
(** * Part I: definitions                                                 *)
(* ===================================================================== *)

(** ** The requirements list *)

Module Requirements.

(** The file, line by line (blank lines left out). *)
Definition requirements : list string :=
  [ "-r requirements_dl.txt"
  ; "# Environment adapters."
  ; "# ---------------------"
  ; "# Atari"
  ; "autorom[accept-rom-license]"
  ; "gym>=0.21.0,<0.24.0; python_version >= '3.7'"
  ; "gym[atari]==0.19.0; python_version < '3.7'"
  ; "# Kaggle envs."
  ; "kaggle_environments==1.7.11"
  ; "# Unity3D testing"
  ; "#TODO(sven): Add this back to requirements_rllib.txt once mlagents no longer pins torch<1.9.0 version."
  ; "#mlagents==0.28.0"
  ; "mlagents_envs==0.28.0"
  ; "# For tests on PettingZoo's multi-agent envs."
  ; "pettingzoo==1.15.0; python_version >= '3.7'"
  ; "pymunk==6.0.0"
  ; "supersuit==3.3.3; python_version >= '3.7'"
  ; "# For testing in MuJoCo-like envs (in PyBullet)."
  ; "pybullet==3.2.0"
  ; "# For tests on RecSim and Kaggle envs."
  ; "recsim==0.2.4"
  ; "tensorflow_estimator==2.9.0"
  ; "# DeepMind's OpenSpiel"
  ; "open-spiel==1.0.2"
  ; "# Other."
  ; "# ------"
  ; "# For MAML on PyTorch."
  ; "higher==0.2.1"
  ; "# For auto-generating an env-rendering Window."
  ; "pyglet==1.5.26"
  ; "imageio-ffmpeg==0.4.5"
  ; "# Ray Serve example"
  ; "starlette==0.20.1"
  ; "# ONNX"
  ; "onnx==1.9.0"
  ; "onnxruntime==1.9.0"
  ; "tf2onnx==1.8.5"
  ].

(** A character that ends the distribution name of a requirement
    specifier: a version operator, an extras bracket, an environment
    marker, a URL marker or white space. *)
Definition ends_name (c : ascii) : bool :=
  existsb (Ascii.eqb c) (list_ascii_of_string "=<>!~[;@ ").

Fixpoint take_name (s : string) : string :=
  match s with
  | EmptyString => EmptyString
  | String c rest => if ends_name c then EmptyString else String c (take_name rest)
  end.

(** What a line declares: nothing for a comment or an option line
    ([-r file]), the distribution name for a requirement. *)
Definition requirement_name (line : string) : option string :=
  match line with
  | EmptyString => None
  | String c _ =>
      if (Ascii.eqb c "#" || Ascii.eqb c "-")%bool then None
      else Some (take_name line)
  end.

Fixpoint names_of (lines : list string) : list string :=
  match lines with
  | [] => []
  | l :: rest =>
      match requirement_name l with
      | Some n => n :: names_of rest
      | None => names_of rest
      end
  end.

Definition has_requirement (n : string) : bool :=
  existsb (String.eqb n) (names_of requirements).

(** The line right above the first requirement of distribution [n]. *)
Fixpoint line_above (n : string) (prev : option string) (lines : list string)
  : option string :=
  match lines with
  | [] => None
  | l :: rest =>
      match requirement_name l with
      | Some m => if String.eqb m n then prev else line_above n (Some l) rest
      | None => line_above n (Some l) rest
      end
  end.

End Requirements.

(** ** The BUILD manifest *)

Module Build.

(** The keyword arguments of a [py_test] call; [main] is optional. *)
Record test_target := mk_test
  { name : string
  ; size : string
  ; main : option string
  ; srcs : list string
  ; tags : list string
  ; deps : list string
  ; args : list string }.

Inductive rule :=
| py_test (t : test_target)
| py_library (lib_name : string) (glob_include glob_exclude : list string).

(** "Tests from the python/ray/train/examples directory." *)
Definition examples_section : list rule :=
  [ py_test (mk_test "mlflow_fashion_mnist_example" "medium"
      (Some "examples/mlflow_fashion_mnist_example.py")
      ["examples/mlflow_fashion_mnist_example.py"]
      ["team:ml"; "exclusive"] [":train_lib"] ["--smoke-test"])
  ; py_test (mk_test "mlflow_simple_example" "medium"
      (Some "examples/mlflow_simple_example.py")
      ["examples/mlflow_simple_example.py"]
      ["team:ml"; "exclusive"; "no_main"] [":train_lib"] [])
  ; py_test (mk_test "tensorflow_quick_start" "medium"
      (Some "examples/tensorflow_quick_start.py")
      ["examples/tensorflow_quick_start.py"]
      ["team:ml"; "exclusive"] [":train_lib"] [])
  ; py_test (mk_test "torch_quick_start" "medium"
      (Some "examples/torch_quick_start.py")
      ["examples/torch_quick_start.py"]
      ["team:ml"; "exclusive"] [":train_lib"] [])
  ; py_test (mk_test "torch_tensorboard_profiler_example" "small"
      (Some "examples/torch_tensorboard_profiler_example.py")
      ["examples/torch_tensorboard_profiler_example.py"]
      ["team:ml"; "exclusive"] [":train_lib"] [])
  ; py_test (mk_test "transformers_example" "large"
      (Some "examples/transformers/transformers_example.py")
      ["examples/transformers/transformers_example.py"]
      ["team:ml"; "exclusive"; "tune"] [":train_lib"]
      ["--model_name_or_path=bert-base-cased"; "--task_name=mrpc";
       "--max_length=32"; "--per_device_train_batch_size=64";
       "--max_train_steps=2"; "--start_local"; "--num_workers=2"])
  ; py_test (mk_test "tune_cifar_pytorch_pbt_example" "medium"
      (Some "examples/tune_cifar_pytorch_pbt_example.py")
      ["examples/tune_cifar_pytorch_pbt_example.py"]
      ["team:ml"; "exclusive"; "pytorch"; "tune"] [":train_lib"] ["--smoke-test"])
  ; py_test (mk_test "tune_linear_dataset_example" "medium"
      (Some "examples/tune_linear_dataset_example.py")
      ["examples/tune_linear_dataset_example.py"]
      ["team:ml"; "exclusive"; "gpu_only"; "tune"] [":train_lib"]
      ["--smoke-test"; "--use-gpu"])
  ; py_test (mk_test "tune_linear_example" "medium"
      (Some "examples/tune_linear_example.py")
      ["examples/tune_linear_example.py"]
      ["team:ml"; "exclusive"; "tune"] [":train_lib"] ["--smoke-test"])
  ].

(** "Tests from the python/ray/train/tests directory." *)
Definition tests_section : list rule :=
  [ py_test (mk_test "pytorch_pbt_failure" "medium" None
      ["tests/pytorch_pbt_failure.py"]
      ["team:ml"; "exlusive"; "no_main"] [":train_lib"] ["--smoke-test"])
  ; py_test (mk_test "test_backend" "large" None
      ["tests/test_backend.py"] ["team:ml"; "exclusive"] [":train_lib"] [])
  ; py_test (mk_test "test_callbacks" "medium" None
      ["tests/test_callbacks.py"] ["team:ml"; "exclusive"] [":train_lib"] [])
  ; py_test (mk_test "test_examples" "large" None
      ["tests/test_examples.py"] ["team:ml"; "exclusive"] [":train_lib"] [])
  ; py_test (mk_test "test_gpu" "large" None
      ["tests/test_gpu.py"] ["team:ml"; "exclusive"; "gpu_only"] [":train_lib"] [])
  ; py_test (mk_test "test_minimal" "small" None
      ["tests/test_minimal.py"] ["team:ml"; "exclusive"; "minimal"] [":train_lib"] [])
  ; py_test (mk_test "test_session" "small" None
      ["tests/test_session.py"] ["team:ml"; "exclusive"] [":train_lib"] [])
  ; py_test (mk_test "test_results_preprocessors" "small" None
      ["tests/test_results_preprocessors.py"] ["team:ml"; "exclusive"] [":train_lib"] [])
  ; py_test (mk_test "test_trainer" "large" None
      ["tests/test_trainer.py"] ["team:ml"; "exclusive"] [":train_lib"] [])
  ; py_test (mk_test "test_tune" "medium" None
      ["tests/test_tune.py"] ["team:ml"; "exclusive"; "tune"] [":train_lib"] [])
  ; py_test (mk_test "test_utils" "small" None
      ["tests/test_utils.py"] ["team:ml"; "exclusive"] [":train_lib"] [])
  ; py_test (mk_test "test_worker_group" "medium" None
      ["tests/test_worker_group.py"] ["team:ml"; "exclusive"] [":train_lib"] [])
  ].

(** The dummy dependency that re-runs the tests when a file changes. *)
Definition train_lib : rule :=
  py_library "train_lib" ["**/*.py"] ["tests/*.py"].

Definition manifest : list rule :=
  examples_section ++ tests_section ++ [train_lib].

Fixpoint py_tests (rules : list rule) : list test_target :=
  match rules with
  | [] => []
  | py_test t :: rest => t :: py_tests rest
  | py_library _ _ _ :: rest => py_tests rest
  end.

(** A path lies under directory [dir] (written with its final slash). *)
Definition under (dir path : string) : bool := String.prefix dir path.

Definition srcs_under (dir : string) (t : test_target) : bool :=
  forallb (under dir) (srcs t).

Definition depends_on (label : string) (t : test_target) : bool :=
  existsb (String.eqb label) (deps t).

(** The label [":" ++ n] names the library rule [n] of this file. *)
Definition declares_library (n : string) (rules : list rule) : bool :=
  existsb (fun r => match r with
                    | py_library m _ _ => String.eqb m n
                    | py_test _ => false
                    end) rules.

End Build.

(** ** Python outcomes *)

Module Python.

(** The built-in exceptions that the modelled code and pandas raise. *)
Inductive Exn :=
| RuntimeError (msg : string)
| ValueError (msg : string)
| KeyError (key : string)
| IndexError (msg : string)
| TypeError (msg : string).

(** A Python call either returns a value or raises. *)
Inductive Outcome (A : Type) :=
| Returned (a : A)
| Raised (e : Exn).
Arguments Returned {A} a.
Arguments Raised {A} e.

Definition obind {A B} (o : Outcome A) (k : A -> Outcome B) : Outcome B :=
  match o with
  | Returned a => k a
  | Raised e => Raised e
  end.

Definition returns {A} (o : Outcome A) : bool :=
  match o with Returned _ => true | Raised _ => false end.

(** [all_returned fn l]: [fn] on each element in turn, the first
    exception wins. *)
Fixpoint all_returned {A B} (fn : A -> Outcome B) (l : list A) : Outcome (list B) :=
  match l with
  | [] => Returned []
  | a :: rest =>
      obind (fn a) (fun b =>
      obind (all_returned fn rest) (fun bs => Returned (b :: bs)))
  end.

(** [int(b)] for a [bool]. *)
Definition int_of_bool (b : bool) : Z := if b then 1%Z else 0%Z.

(** [math.ceil(n / 2)] for a length [n]: the float quotient is exact
    (a length is far below 2^53), so this is the integer ceiling. *)
Definition ceil_half (n : nat) : nat := Nat.div2 (S n).

(** [l * k] on lists. *)
Fixpoint list_times {A} (l : list A) (k : nat) : list A :=
  match k with
  | O => []
  | S k' => l ++ list_times l k'
  end.

End Python.

(** ** Data frames *)

Module Pandas.
Import Python.

(** A cell of an object-typed frame: a binary64 float (NaN included),
    an integer, a string or a boolean. *)
Inductive cell :=
| CFloat (x : spec_float)
| CInt (z : Z)
| CStr (s : string)
| CBool (b : bool).

Definition NaN : cell := CFloat S754_nan.

(** A frame of cells of type [A] (its dtype): the row labels and the
    columns in order, each a label and its values, one per row. *)
Record Frame (A : Type) := mk_frame
  { index : list nat
  ; columns : list (string * list A) }.
Arguments mk_frame {A} index columns.
Arguments index {A} f.
Arguments columns {A} f.

Definition DataFrame := Frame cell.

(** A series: row labels and values. *)
Record Series := mk_series
  { s_index : list nat
  ; s_values : list cell }.

(** [RangeIndex(n)]. *)
Definition RangeIndex (n : nat) : list nat := seq 0 n.

(** [pd.Series(values)]. *)
Definition pd_Series (values : list cell) : Series :=
  mk_series (RangeIndex (List.length values)) values.

(** [len(df)]. *)
Definition len {A} (df : Frame A) : nat := List.length (index df).

Definition names {A} (df : Frame A) : list string := map fst (columns df).

Definition has_column {A} (label : string) (df : Frame A) : bool :=
  existsb (String.eqb label) (names df).

(** [df[label]] read: the first column with that label. *)
Fixpoint find_column {A} (label : string) (cols : list (string * list A))
  : option (list A) :=
  match cols with
  | [] => None
  | (n, d) :: rest => if String.eqb n label then Some d else find_column label rest
  end.

Definition column {A} (label : string) (df : Frame A) : option (list A) :=
  find_column label (columns df).

(** Column [j] of a row-major 2-d array. *)
Definition array_column (data : list (list cell)) (j : nat) : list cell :=
  map (fun row => nth j row NaN) data.

Fixpoint columns_from (data : list (list cell)) (j : nat) (labels : list string)
  : list (string * list cell) :=
  match labels with
  | [] => []
  | n :: rest => (n, array_column data j) :: columns_from data (S j) rest
  end.

(** [pd.DataFrame(data, columns=labels)] on a 2-d array, given by its
    rows: the labels must be as many as the array is wide.  The rows of an
    array are all of one width; rows of different widths stand for no
    array, and are refused like an array of the wrong width. *)
Definition pd_DataFrame (data : list (list cell)) (labels : list string)
  : Outcome DataFrame :=
  if forallb (fun row => (List.length row =? List.length labels)%nat) data
  then Returned (mk_frame (RangeIndex (List.length data)) (columns_from data 0 labels))
  else Raised (ValueError "Shape of passed values does not match the columns").

(** [df[label] = values] once the values are one per row: the column
    with that label is overwritten in place, a new label goes last.  This
    is pandas on a frame in which at most one column carries [label];
    where several do, they are all overwritten alike here, which pandas
    does not do when the values are as many as those columns. *)
Definition set_column {A} (label : string) (values : list A) (df : Frame A) : Frame A :=
  if has_column label df
  then mk_frame (index df)
         (map (fun c => if String.eqb (fst c) label then (fst c, values) else c)
              (columns df))
  else mk_frame (index df) (columns df ++ [(label, values)]).

(** Before an assignment, a frame without rows takes the row labels
    of a non-empty value; the columns it already has are NaN there. *)
Definition ensure_valid_index (value_index : list nat) (df : DataFrame) : DataFrame :=
  match index df, value_index with
  | [], _ :: _ =>
      mk_frame value_index
        (map (fun c => (fst c, repeat NaN (List.length value_index))) (columns df))
  | _, _ => df
  end.

(** [df[label] = array]: one value per row, or [ValueError]. *)
Definition setitem_array (label : string) (values : list cell) (df : DataFrame)
  : Outcome DataFrame :=
  let df := ensure_valid_index (RangeIndex (List.length values)) df in
  if (List.length values =? len df)%nat
  then Returned (set_column label values df)
  else Raised (ValueError "Length of values does not match length of index").

Fixpoint lookup_label (l : nat) (labels : list nat) (values : list cell) : cell :=
  match labels, values with
  | l' :: labels', v :: values' => if (l' =? l)%nat then v else lookup_label l labels' values'
  | _, _ => NaN
  end.

Fixpoint nodupb (l : list nat) : bool :=
  match l with
  | [] => true
  | x :: rest => negb (existsb (Nat.eqb x) rest) && nodupb rest
  end.

Definition same_index (a b : list nat) : bool :=
  if list_eq_dec Nat.eq_dec a b then true else false.

(** [df[label] = series]: the series is aligned on the frame's row
    labels (a label the series lacks gives NaN); a series whose own
    labels repeat cannot be realigned.  Where NaN is filled in among
    integers pandas turns the column into floats; the cells are kept as
    they are here. *)
Definition setitem_series (label : string) (s : Series) (df : DataFrame)
  : Outcome DataFrame :=
  let df := ensure_valid_index (s_index s) df in
  if same_index (s_index s) (index df)
  then Returned (set_column label (s_values s) df)
  else if nodupb (s_index s)
  then Returned (set_column label
                   (map (fun l => lookup_label l (s_index s) (s_values s)) (index df)) df)
  else Raised (ValueError "cannot reindex on an axis with duplicate labels").

(** The frame without the columns of one label. *)
Definition without (label : string) (df : DataFrame) : DataFrame :=
  mk_frame (index df)
    (filter (fun c => negb (String.eqb (fst c) label)) (columns df)).

(** [df.drop(label, axis=1)]: a new frame without the columns of that
    label; [KeyError] when there is none. *)
Definition drop (label : string) (df : DataFrame) : Outcome DataFrame :=
  if has_column label df
  then Returned (without label df)
  else Raised (KeyError label).

(** The rows at some positions, in the order of the positions. *)
Definition rows_at (positions : list nat) (df : DataFrame) : DataFrame :=
  mk_frame (map (fun p => nth p (index df) O) positions)
    (map (fun c => (fst c, map (fun p => nth p (snd c) NaN) positions))
         (columns df)).

(** [df.iloc[positions]]: [IndexError] on a position past the last row. *)
Definition iloc (positions : list nat) (df : DataFrame) : Outcome DataFrame :=
  if forallb (fun p => (p <? len df)%nat) positions
  then Returned (rows_at positions df)
  else Raised (IndexError "positional indexers are out-of-bounds").

(** Cell by cell. *)
Definition frame_map {A B} (f : A -> B) (df : Frame A) : Frame B :=
  mk_frame (index df) (map (fun c => (fst c, map f (snd c))) (columns df)).

Definition frame_traverse {A B} (f : A -> Outcome B) (df : Frame A) : Outcome (Frame B) :=
  obind (all_returned (fun c => obind (all_returned f (snd c))
                                  (fun d => Returned (fst c, d)))
                      (columns df))
        (fun cols => Returned (mk_frame (index df) cols)).

Definition cells {A} (df : Frame A) : list A := List.concat (map snd (columns df)).

(** The binary64 float 0.5 = 2^52 * 2^-53. *)
Definition half : spec_float := S754_finite false 4503599627370496 (-53).

(** [x > 0.5] on one cell: IEEE comparison on a float (false on NaN),
    exact comparison on an integer or a boolean, [TypeError] on a
    string. *)
Definition gt_half (c : cell) : Outcome bool :=
  match c with
  | CFloat x => Returned (SFltb half x)
  | CInt z => Returned (0 <? z)%Z
  | CBool b => Returned b
  | CStr _ => Raised (TypeError "'>' not supported between instances of 'str' and 'float'")
  end.

(** [df > 0.5]: a boolean frame. *)
Definition gt_0_5 (df : DataFrame) : Outcome (Frame bool) :=
  frame_traverse gt_half df.

(** [.astype(int)] on a boolean frame. *)
Definition astype_int (df : Frame bool) : Frame Z := frame_map int_of_bool df.

(** An integer frame seen as an object frame. *)
Definition as_object (df : Frame Z) : DataFrame := frame_map CInt df.

End Pandas.

(** ** Ray datasets *)

Module Ray.
Import Python Pandas.

(** A dataset is a list of blocks, each a pandas frame. *)
Definition Dataset := list DataFrame.

(** [ds.map_batches(fn, batch_format="pandas")]: [fn] on every batch;
    an exception of [fn] fails the call.  A batch is a block here; the
    datasets [fn] is applied to range over every list of blocks. *)
Definition map_batches (fn : DataFrame -> Outcome DataFrame) (ds : Dataset)
  : Outcome Dataset :=
  all_returned fn ds.

(** [ds.count()]. *)
Definition count (ds : Dataset) : nat := list_sum (map len ds).

(** [pandas.concat([a, b])]: rows of [a], then rows of [b]; a column
    that one of the two lacks is NaN on that one's rows, and the
    columns only [b] has come last.  Where NaN is filled in among
    integers pandas turns the column into floats; the cells are kept as
    they are here. *)
Definition append_rows (a b : DataFrame) : DataFrame :=
  mk_frame (index a ++ index b)
    (map (fun c => (fst c, snd c ++ match column (fst c) b with
                                    | Some d => d
                                    | None => repeat NaN (len b)
                                    end))
         (columns a)
     ++ map (fun c => (fst c, repeat NaN (len a) ++ snd c))
            (filter (fun c => negb (has_column (fst c) a)) (columns b))).

(** [pandas.concat(blocks, ignore_index=True)]. *)
Definition concat_blocks (blocks : list DataFrame) : DataFrame :=
  match blocks with
  | [] => mk_frame [] []
  | b :: rest =>
      let all := fold_left append_rows rest b in
      mk_frame (RangeIndex (len all)) (columns all)
  end.

(** [ds.to_pandas(limit)]; [None] is [float("inf")]. *)
Definition to_pandas (limit : option nat) (ds : Dataset) : Outcome DataFrame :=
  match limit with
  | Some l =>
      if (l <? count ds)%nat
      then Raised (ValueError "The dataset has more than the given limit of records")
      else Returned (concat_blocks ds)
  | None => Returned (concat_blocks ds)
  end.

End Ray.

(** ** The framework the notebooks call *)

Module Air.
Import Python Pandas Ray.

(** [sklearn.datasets.load_breast_cancer()]: arrays. *)
Record Bunch := mk_bunch
  { data : list (list cell)
  ; feature_names : list string
  ; target : list cell }.

(** [load_breast_cancer(as_frame=True)]: a frame and a series. *)
Record FrameBunch := mk_frame_bunch
  { frame_data : DataFrame
  ; frame_target : Series }.

Definition BunchOf (as_frame : bool) : Type :=
  if as_frame then FrameBunch else Bunch.

Inductive Checkpoint := Checkpoint_at (path : string).

Definition Metrics := list (string * string).

(** [ray.air.result.Result]. *)
Record Result := mk_result
  { metrics : Metrics
  ; checkpoint : Checkpoint
  ; error : option Exn }.

Inductive EstimatorClass :=
| sklearn_RandomForestClassifier
| cuml_RandomForestClassifier.

(** An instance made by calling the class without arguments. *)
Inductive Estimator := new_estimator (cls : EstimatorClass).

#[warnings="-register-all"]
Inductive Preprocessor :=
| OrdinalEncoder (columns : list string)
| StandardScaler (columns : list string)
| Chain (steps : list Preprocessor).

(** A value of a [scaling_config] dict. *)
Inductive ConfigValue :=
| ConfigInt (z : Z)
| ConfigDict (d : list (string * Z)).

Record SklearnTrainer := mk_SklearnTrainer
  { sk_estimator : Estimator
  ; sk_label_column : string
  ; sk_datasets : list (string * Dataset)
  ; sk_preprocessor : Preprocessor
  ; sk_cv : Z
  ; sk_scaling_config : list (string * ConfigValue) }.

Inductive Callback :=
| WandbLoggerCallback (project : string) (save_checkpoints : bool).

Record RunConfig := mk_RunConfig
  { callbacks : list Callback }.

Record XGBoostTrainer := mk_XGBoostTrainer
  { xgb_scaling_config : list (string * ConfigValue)
  ; xgb_params : list (string * string)
  ; xgb_label_column : string
  ; xgb_datasets : list (string * Dataset)
  ; xgb_num_boost_round : Z
  ; xgb_run_config : RunConfig }.

Inductive PredictorClass := SklearnPredictor.

Record BatchPredictor := mk_BatchPredictor
  { bp_checkpoint : Checkpoint
  ; bp_predictor_cls : PredictorClass }.

(** What [print] is given. *)
Inductive Printed :=
| PrintMetrics (m : Metrics)
| PrintLabels (header : string) (table : DataFrame).

(** The calls that leave the notebook, in the order they are made. *)
Inductive Event :=
| Ev_load_breast_cancer (as_frame : bool)
| Ev_train_test_split (df : DataFrame) (test_size : Q)
| Ev_from_pandas (df : DataFrame)
| Ev_SklearnTrainer (t : SklearnTrainer)
| Ev_XGBoostTrainer (t : XGBoostTrainer)
| Ev_fit_sklearn (t : SklearnTrainer)
| Ev_fit_xgboost (t : XGBoostTrainer)
| Ev_from_checkpoint (c : Checkpoint) (cls : PredictorClass)
| Ev_predict (p : BatchPredictor) (ds : Dataset) (num_gpus_per_worker : Z)
| Ev_print (p : Printed).

(** What the notebooks cannot compute: whether cuML imports, the bundled
    data, and the answers of the random split, of fitting and of
    predicting, each indexed by the state of the random source. *)
Class Framework := mk_Framework
  { cuml_installed : bool
  ; load_breast_cancer_data : forall as_frame : bool, BunchOf as_frame
  ; split_choice : nat -> nat -> Q -> list nat * list nat
  ; SklearnTrainer_fit : nat -> SklearnTrainer -> Result
  ; XGBoostTrainer_fit : nat -> XGBoostTrainer -> Result
  ; BatchPredictor_predict : nat -> BatchPredictor -> Dataset -> Z -> Dataset }.

(** The world a cell runs in: the random source and the calls so far. *)
Record World := mk_world
  { rng : nat
  ; log : list Event }.

(** A computation reads and updates the world and returns or raises;
    the world at a raise is the world reached so far. *)
Definition M (A : Type) : Type := World -> Outcome A * World.

Definition ret {A} (a : A) : M A := fun w => (Returned a, w).

Definition bind {A B} (c : M A) (k : A -> M B) : M B :=
  fun w => match c w with
           | (Returned a, w') => k a w'
           | (Raised e, w') => (Raised e, w')
           end.

Definition raise {A} (e : Exn) : M A := fun w => (Raised e, w).

Definition lift {A} (o : Outcome A) : M A := fun w => (o, w).

Definition emit (e : Event) : M unit :=
  fun w => (Returned tt, mk_world (rng w) (log w ++ [e])).

Definition draw : M nat :=
  fun w => (Returned (rng w), mk_world (S (rng w)) (log w)).

Declare Scope notebook_scope.
Delimit Scope notebook_scope with nb.
Notation "x <- c ;; k" := (bind c (fun x => k))
  (at level 61, c at next level, right associativity) : notebook_scope.
Notation "' p <- c ;; k" := (bind c (fun x => let 'p := x in k))
  (at level 61, p pattern, c at next level, right associativity) : notebook_scope.
Notation "c ;; k" := (bind c (fun _ => k))
  (at level 61, right associativity) : notebook_scope.
Local Open Scope notebook_scope.

Section Calls.
Context {F : Framework}.

(** The module-level [try: from cuml.ensemble import ... except
    ImportError: cuMLRandomForestClassifier = None]. *)
Definition cuMLRandomForestClassifier : option EstimatorClass :=
  if cuml_installed then Some cuml_RandomForestClassifier else None.

(** Truth value of the name above: a class is true, [None] is false. *)
Definition truthy {A} (o : option A) : bool :=
  match o with Some _ => true | None => false end.

(** Calling it: an instance, or [TypeError] on [None]. *)
Definition call_class (c : option EstimatorClass) : M Estimator :=
  match c with
  | Some cls => ret (new_estimator cls)
  | None => raise (TypeError "'NoneType' object is not callable")
  end.

Definition load_breast_cancer (as_frame : bool) : M (BunchOf as_frame) :=
  emit (Ev_load_breast_cancer as_frame) ;;
  ret (load_breast_cancer_data as_frame).

(** [train_test_split(df, test_size=...)]: the rows at the positions
    the split chooses, the train part first.  sklearn chooses among the
    rows of the frame and refuses a frame too small to leave a train row;
    here the choice is whatever the framework answers, a position out of
    range is refused by [iloc], and a small frame is split like any
    other. *)
Definition train_test_split (df : DataFrame) (test_size : Q)
  : M (DataFrame * DataFrame) :=
  emit (Ev_train_test_split df test_size) ;;
  seed <- draw ;;
  let chosen := split_choice seed (len df) test_size in
  train <- lift (iloc (fst chosen) df) ;;
  test <- lift (iloc (snd chosen) df) ;;
  ret (train, test).

(** [ray.data.from_pandas(df)]: a dataset of one block. *)
Definition from_pandas (df : DataFrame) : M Dataset :=
  emit (Ev_from_pandas df) ;;
  ret [df].

Definition new_SklearnTrainer (t : SklearnTrainer) : M SklearnTrainer :=
  emit (Ev_SklearnTrainer t) ;; ret t.

Definition new_XGBoostTrainer (t : XGBoostTrainer) : M XGBoostTrainer :=
  emit (Ev_XGBoostTrainer t) ;; ret t.

Definition fit_sklearn (t : SklearnTrainer) : M Result :=
  emit (Ev_fit_sklearn t) ;;
  seed <- draw ;;
  ret (SklearnTrainer_fit seed t).

Definition fit_xgboost (t : XGBoostTrainer) : M Result :=
  emit (Ev_fit_xgboost t) ;;
  seed <- draw ;;
  ret (XGBoostTrainer_fit seed t).

(** [BatchPredictor.from_checkpoint(checkpoint, cls)]. *)
Definition from_checkpoint (c : Checkpoint) (cls : PredictorClass) : M BatchPredictor :=
  emit (Ev_from_checkpoint c cls) ;;
  ret (mk_BatchPredictor c cls).

Definition predict (p : BatchPredictor) (ds : Dataset) (num_gpus_per_worker : Z)
  : M Dataset :=
  emit (Ev_predict p ds num_gpus_per_worker) ;;
  seed <- draw ;;
  ret (BatchPredictor_predict seed p ds num_gpus_per_worker).

Definition print (p : Printed) : M unit := emit (Ev_print p).

End Calls.

End Air.


(** ** sklearn_example.ipynb *)

Module SklearnExample.
Import Python Pandas Ray Air.
Local Open Scope notebook_scope.

Section Notebook.
Context {F : Framework}.

(** The values of the random categorical column:
    [(["A", "B"] * math.ceil(num_samples / 2))[:num_samples]]. *)
Definition categorical_values (num_samples : nat) : list cell :=
  firstn num_samples (list_times [CStr "A"; CStr "B"] (ceil_half num_samples)).

Definition prepare_data : M (Dataset * Dataset * Dataset) :=
  data_raw <- load_breast_cancer false ;;
  dataset_df <- lift (pd_DataFrame (data data_raw) (feature_names data_raw)) ;;
  dataset_df <- lift (setitem_array "target" (target data_raw) dataset_df) ;;
  (* add a random categorical column *)
  let num_samples := len dataset_df in
  dataset_df <- lift (setitem_series "categorical_column"
                        (pd_Series (categorical_values num_samples)) dataset_df) ;;
  split <- train_test_split dataset_df (3 # 10) ;;
  let train_df := fst split in
  let test_df := snd split in
  train_dataset <- from_pandas train_df ;;
  valid_dataset <- from_pandas test_df ;;
  without_target <- lift (drop "target" test_df) ;;
  test_dataset <- from_pandas without_target ;;
  ret (train_dataset, valid_dataset, test_dataset).

(** The frame [prepare_data] hands to the split when the arrays of the
    bunch fit together: the features, then "target", then
    "categorical_column", on the rows [0 .. n-1]. *)
Definition dataset_frame (b : Bunch) : DataFrame :=
  let n := List.length (data b) in
  set_column "categorical_column" (categorical_values n)
    (set_column "target" (target b)
       (mk_frame (RangeIndex n) (columns_from (data b) 0 (feature_names b)))).

(** The third dataset of a run of [prepare_data] (none when it raises). *)
Definition test_dataset_of (w : World) : Dataset :=
  match fst (prepare_data w) with
  | Returned prepared => snd prepared
  | Raised _ => []
  end.

Definition cuML_missing_message : string :=
  "cuML must be installed for GPU enabled sklearn estimators.".

Definition train_sklearn (num_cpus : Z) (use_gpu : bool) : M Result :=
  if (use_gpu && negb (truthy cuMLRandomForestClassifier))%bool
  then raise (RuntimeError cuML_missing_message)
  else
    prepared <- prepare_data ;;
    let train_dataset := fst (fst prepared) in
    let valid_dataset := snd (fst prepared) in
    (* Scale some random columns *)
    let columns_to_scale := ["mean radius"; "mean texture"] in
    let preprocessor :=
      Chain [OrdinalEncoder ["categorical_column"]; StandardScaler columns_to_scale] in
    chosen <- (if use_gpu
               then
                 let trainer_resources := [("CPU", 1%Z); ("GPU", 1%Z)] in
                 estimator <- call_class cuMLRandomForestClassifier ;;
                 ret (trainer_resources, estimator)
               else
                 let trainer_resources := [("CPU", num_cpus)] in
                 estimator <- call_class (Some sklearn_RandomForestClassifier) ;;
                 ret (trainer_resources, estimator)) ;;
    let trainer_resources := fst chosen in
    let estimator := snd chosen in
    trainer <- new_SklearnTrainer
                 (mk_SklearnTrainer estimator "target"
                    [("train", train_dataset); ("valid", valid_dataset)]
                    preprocessor 5%Z
                    [("trainer_resources", ConfigDict trainer_resources)]) ;;
    result <- fit_sklearn trainer ;;
    print (PrintMetrics (metrics result)) ;;
    ret result.

(** The function given to [map_batches]:
    [lambda df: (df > 0.5).astype(int)]. *)
Definition to_labels (df : DataFrame) : Outcome DataFrame :=
  obind (gt_0_5 df) (fun above => Returned (as_object (astype_int above))).

Definition predict_sklearn (result : Result) (use_gpu : bool) : M unit :=
  prepared <- prepare_data ;;
  let test_dataset := snd prepared in
  batch_predictor <- from_checkpoint (checkpoint result) SklearnPredictor ;;
  predictions <- predict batch_predictor test_dataset (int_of_bool use_gpu) ;;
  mapped <- lift (map_batches to_labels predictions) ;;
  predicted_labels <- lift (to_pandas None mapped) ;;
  print (PrintLabels "PREDICTED LABELS" predicted_labels).

End Notebook.
End SklearnExample.

(** ** upload_to_wandb.ipynb *)

Module UploadToWandb.
Import Python Pandas Ray Air.
Local Open Scope notebook_scope.

Section Notebook.
Context {F : Framework}.

(** Return the "Breast cancer" dataset as a Ray dataset.  [df] is the
    frame the bunch holds and the assignment updates it in place; nothing
    reads the bunch afterwards, so the frame after the assignment is all
    that is kept here. *)
Definition get_train_dataset : M Dataset :=
  data_raw <- load_breast_cancer true ;;
  let df := frame_data data_raw in
  df <- lift (setitem_series "target" (frame_target data_raw) df) ;;
  from_pandas df.

(** Train a simple XGBoost model and return the result. *)
Definition train_model (train_dataset : Dataset) (wandb_project : string) : M Result :=
  trainer <- new_XGBoostTrainer
               (mk_XGBoostTrainer
                  [("num_workers", ConfigInt 2)]
                  [("tree_method", "auto")]
                  "target"
                  [("train", train_dataset)]
                  10%Z
                  (mk_RunConfig [WandbLoggerCallback wandb_project true])) ;;
  result <- fit_xgboost trainer ;;
  ret result.

End Notebook.
End UploadToWandb.

(** ** Conditions on what the framework hands back *)

Module Conditions.
Import Python Pandas Ray Air.

(** The arrays of a bunch fit together: every row of [data] has one
    value per feature name, and [target] has one label per row. *)
Definition bunch_ok (b : Bunch) : bool :=
  forallb (fun row => List.length row =? List.length (feature_names b)) (data b)
  && (List.length (target b) =? List.length (data b)).

(** The positions a split chooses are rows of a frame of [n] rows. *)
Definition positions_ok (n : nat) (chosen : list nat * list nat) : bool :=
  forallb (fun p => p <? n) (fst chosen) && forallb (fun p => p <? n) (snd chosen).

(** The frame and the label series of a bunch carry the same row labels,
    and no feature is called "target". *)
Definition frame_bunch_ok (b : FrameBunch) : bool :=
  same_index (s_index (frame_target b)) (index (frame_data b))
  && negb (has_column "target" (frame_data b)).

(** A number: a binary64 float or an integer. *)
Definition numeric (c : cell) : bool :=
  match c with
  | CFloat x => valid_binary 53 1024 x
  | CInt _ => true
  | CStr _ | CBool _ => false
  end.

(** What a numeric cell stands for. *)
Inductive number :=
| Finite (q : Q)
| PlusInfinity
| MinusInfinity
| NotANumber.

(** [m * 2^e] as a rational. *)
Definition scaled (m : positive) (e : Z) : Q :=
  match e with
  | Z0 => inject_Z (Zpos m)
  | Zpos p => inject_Z (Zpos m * 2 ^ Zpos p)
  | Zneg p => Qmake (Zpos m) (2 ^ p)%positive
  end.

Definition float_value (x : spec_float) : number :=
  match x with
  | S754_zero _ => Finite 0
  | S754_infinity s => if s then MinusInfinity else PlusInfinity
  | S754_nan => NotANumber
  | S754_finite s m e => Finite (if s then Qopp (scaled m e) else scaled m e)
  end.

Definition cell_number (c : cell) : option number :=
  match c with
  | CFloat x => Some (float_value x)
  | CInt z => Some (Finite (inject_Z z))
  | CStr _ | CBool _ => None
  end.

(** Strictly greater than 0.5. *)
Definition exceeds_half (v : number) : Prop :=
  match v with
  | Finite q => (1 # 2 < q)%Q
  | PlusInfinity => True
  | MinusInfinity | NotANumber => False
  end.

Definition real_valued (df : DataFrame) : bool := forallb numeric (cells df).

(** A cell that [> 0.5] accepts: anything but a string. *)
Definition comparable (c : cell) : bool :=
  match c with
  | CStr _ => false
  | CFloat _ | CInt _ | CBool _ => true
  end.

Definition comparable_frame (df : DataFrame) : bool := forallb comparable (cells df).

(** The label series of a bunch can be aligned on the rows of its frame. *)
Definition alignable (b : FrameBunch) : bool :=
  same_index (s_index (frame_target b)) (index (frame_data b))
  || nodupb (s_index (frame_target b)).

(** Whether a comparable cell is above one half. *)
Definition above_half (c : cell) : bool :=
  match c with
  | CFloat x => SFltb half x
  | CInt z => (0 <? z)%Z
  | CBool b => b
  | CStr _ => false
  end.

(** The label of a prediction: 1 above one half, 0 otherwise. *)
Definition label_cell (c : cell) : cell := CInt (int_of_bool (above_half c)).

Definition labels_of (df : DataFrame) : DataFrame := frame_map label_cell df.

Definition same_names (a b : DataFrame) : bool :=
  if list_eq_dec string_dec (names a) (names b) then true else false.

(** All blocks of a dataset have the columns of the first. *)
Definition one_schema (ds : Dataset) : bool :=
  match ds with
  | [] => true
  | b :: rest => forallb (fun b' => same_names b' b) rest
  end.

End Conditions.

(** ** A small framework to run the notebooks on *)

Module Toy.
Import Python Pandas Ray Air.

Definition one : spec_float := S754_finite false 4503599627370496 (-52).
Definition quarter : spec_float := S754_finite false 4503599627370496 (-54).
Definition three_quarters : spec_float := S754_finite false 6755399441055744 (-53).
Definition two : spec_float := S754_finite false 4503599627370496 (-51).

Definition toy_bunch : Bunch :=
  mk_bunch
    [ [CFloat one; CFloat two]
    ; [CFloat two; CFloat quarter]
    ; [CFloat three_quarters; CFloat one]
    ; [CFloat quarter; CFloat two] ]
    ["mean radius"; "mean texture"]
    [CInt 0; CInt 1; CInt 1; CInt 0].

Definition toy_frame_bunch : FrameBunch :=
  mk_frame_bunch
    (mk_frame [0; 1; 2]
       [ ("mean radius", [CFloat one; CFloat two; CFloat quarter])
       ; ("mean texture", [CFloat two; CFloat quarter; CFloat one]) ])
    (mk_series [0; 1; 2] [CInt 0; CInt 1; CInt 1]).

(** The rows at odd positions train, those at even positions test, both
    from the last row up. *)
Definition toy_split (seed n : nat) (test_size : Q) : list nat * list nat :=
  (filter Nat.odd (rev (seq 0 n)), filter Nat.even (rev (seq 0 n))).

Definition toy_result (seed : nat) : Result :=
  mk_result [("training_iteration", "1")] (Checkpoint_at "checkpoint_000000") None.

(** One block of predictions per block of rows: 0.75 on a row with an
    even label, 0.25 on the others. *)
Definition toy_predict (seed : nat) (p : BatchPredictor) (ds : Dataset)
  (num_gpus_per_worker : Z) : Dataset :=
  map (fun df => mk_frame (index df)
                   [("predictions",
                     map (fun l => CFloat (if Nat.even l then three_quarters else quarter))
                         (index df))])
      ds.

Definition toy (cuml : bool) : Framework :=
  mk_Framework cuml
    (fun as_frame => if as_frame as b return BunchOf b then toy_frame_bunch else toy_bunch)
    toy_split
    (fun seed _ => toy_result seed)
    (fun seed _ => toy_result seed)
    toy_predict.

Definition start : World := mk_world 0 [].

End Toy.

(** ** The cells that run the notebooks *)

Module Cells.
Import Python Pandas Ray Air SklearnExample UploadToWandb.
Local Open Scope notebook_scope.

Section Notebook.
Context {F : Framework}.

(** sklearn_example.ipynb, the two cells after the definitions, run one
    after the other: [result = train_sklearn(num_cpus=2, use_gpu=False)]
    and [predict_sklearn(result, use_gpu=False)]. *)
Definition sklearn_cells : M unit :=
  result <- train_sklearn 2%Z false ;;
  predict_sklearn result false.

(** upload_to_wandb.ipynb, the cell that kicks off a run. *)
Definition wandb_cell : M Result :=
  let wandb_project := "ray_air_example" in
  train_dataset <- get_train_dataset ;;
  result <- train_model train_dataset wandb_project ;;
  ret result.

End Notebook.
End Cells.

(** ** Reading rows and trainer settings *)

Module Reading.
Import Python Pandas Ray Air.

(** The position of the first row labelled [l]. *)
Fixpoint position_of (l : nat) (labels : list nat) : option nat :=
  match labels with
  | [] => None
  | l' :: rest => if l' =? l then Some 0 else option_map S (position_of l rest)
  end.

(** [df.loc[l]]: the row labelled [l], one value per column. *)
Definition loc (l : nat) (df : DataFrame) : option (list (string * cell)) :=
  match position_of l (index df) with
  | Some k => Some (map (fun c => (fst c, nth k (snd c) NaN)) (columns df))
  | None => None
  end.

(** [df.iloc[i, k]]: the value in row [i] of the [k]-th column. *)
Definition cell_at {A} (k i : nat) (df : Frame A) : option A :=
  match nth_error (columns df) k with
  | Some c => nth_error (snd c) i
  | None => None
  end.

(** The columns a preprocessor is told to work on. *)
Fixpoint preprocessor_columns (p : Preprocessor) : list string :=
  match p with
  | OrdinalEncoder columns => columns
  | StandardScaler columns => columns
  | Chain steps => flat_map preprocessor_columns steps
  end.

(** The calls a run of [prepare_data] makes when nothing raises, given the
    frame it built and the two parts the split gave back. *)
Definition prepare_calls (full train_df test_df : DataFrame) : list Event :=
  [ Ev_load_breast_cancer false
  ; Ev_train_test_split full (3 # 10)
  ; Ev_from_pandas train_df
  ; Ev_from_pandas test_df
  ; Ev_from_pandas (without "target" test_df) ].

(** What [> 0.5] raises on a string. *)
Definition not_comparable : Exn :=
  TypeError "'>' not supported between instances of 'str' and 'float'".

Definition is_from_pandas (e : Event) : bool :=
  match e with Ev_from_pandas _ => true | _ => false end.

Definition is_print (e : Event) : bool :=
  match e with Ev_print _ => true | _ => false end.

Fixpoint nodup_names (l : list string) : bool :=
  match l with
  | [] => true
  | x :: rest => negb (existsb (String.eqb x) rest) && nodup_names rest
  end.

(** Feature names that are distinct and leave the two added labels free. *)
Definition features_ok (b : Bunch) : bool :=
  nodup_names (feature_names b)
  && negb (existsb (String.eqb "target") (feature_names b))
  && negb (existsb (String.eqb "categorical_column") (feature_names b)).

End Reading.

(** ** Frameworks that hand back other data *)

Module Variants.
Import Python Pandas Ray Air.

(** The small framework with another bunch, split and predictor. *)
Definition toy_with (b : Bunch) (fb : FrameBunch)
  (split : nat -> nat -> Q -> list nat * list nat)
  (predict : nat -> BatchPredictor -> Dataset -> Z -> Dataset) : Framework :=
  mk_Framework false
    (fun as_frame => if as_frame as a return BunchOf a then fb else b)
    split
    (fun seed _ => Toy.toy_result seed)
    (fun seed _ => Toy.toy_result seed)
    predict.

(** A split that depends on the state of the random source. *)
Definition rotating_split (seed n : nat) (test_size : Q) : list nat * list nat :=
  (filter (fun p => negb (p =? Nat.modulo seed n)) (seq 0 n), [Nat.modulo seed n]).

(** A predictor that answers with class names. *)
Definition naming_predict (seed : nat) (p : BatchPredictor) (ds : Dataset)
  (num_gpus_per_worker : Z) : Dataset :=
  map (fun df => mk_frame (index df)
                   [("predictions", map (fun _ => CStr "benign") (index df))])
      ds.




(** A frame that already has a column called "target", and labels on
    other rows. *)
Definition clashing_frame_bunch : FrameBunch :=
  mk_frame_bunch
    (mk_frame [0; 1; 2]
       [ ("target", [CFloat Toy.one; CFloat Toy.two; CFloat Toy.quarter])
       ; ("mean texture", [CFloat Toy.two; CFloat Toy.quarter; CFloat Toy.one]) ])
    (mk_series [2; 1; 5] [CInt 0; CInt 1; CInt 1]).

(** A frame that already has a column called "target", on the rows of
    the labels. *)
Definition labelled_frame_bunch : FrameBunch :=
  mk_frame_bunch
    (mk_frame [0; 1; 2]
       [ ("target", [CFloat Toy.one; CFloat Toy.two; CFloat Toy.quarter])
       ; ("mean texture", [CFloat Toy.two; CFloat Toy.quarter; CFloat Toy.one]) ])
    (mk_series [0; 1; 2] [CInt 0; CInt 1; CInt 1]).

(** Labels that repeat a row and are not those of the frame. *)
Definition repeating_frame_bunch : FrameBunch :=
  mk_frame_bunch
    (mk_frame [0; 1; 2] [("mean radius", [CFloat Toy.one; CFloat Toy.two; CFloat Toy.quarter])])
    (mk_series [0; 0; 1] [CInt 0; CInt 1; CInt 1]).

End Variants.

(** ** Environment markers of the requirements *)

Module Markers.
Import Requirements.

(** The pieces of [s] between the occurrences of [c]. *)
Fixpoint split_on (c : ascii) (s : string) : list string :=
  match s with
  | EmptyString => [EmptyString]
  | String a rest =>
      if Ascii.eqb a c then EmptyString :: split_on c rest
      else match split_on c rest with
           | piece :: pieces => String a piece :: pieces
           | [] => [String a EmptyString]
           end
  end.

Definition nonempty (s : string) : bool :=
  match s with EmptyString => false | String _ _ => true end.

(** The words of a text: what white space separates. *)
Definition words (s : string) : list string := filter nonempty (split_on " " s).

Definition digit_of (c : ascii) : option nat :=
  let n := nat_of_ascii c in
  if (48 <=? n) && (n <=? 57) then Some (n - 48) else None.

Fixpoint number_from (acc : nat) (s : string) : option nat :=
  match s with
  | EmptyString => Some acc
  | String c rest =>
      match digit_of c with
      | Some d => number_from (10 * acc + d) rest
      | None => None
      end
  end.

(** A decimal numeral. *)
Definition number_of (s : string) : option nat :=
  match s with
  | EmptyString => None
  | String _ _ => number_from 0 s
  end.

Fixpoint all_some {A} (l : list (option A)) : option (list A) :=
  match l with
  | [] => Some []
  | Some a :: rest => option_map (cons a) (all_some rest)
  | None :: _ => None
  end.

(** A version between single quotes, as its numbers: ['3.7'] is [3; 7]. *)
Definition quoted_version (s : string) : option (list nat) :=
  match split_on "'" s with
  | [EmptyString; v; EmptyString] => all_some (map number_of (split_on "." v))
  | _ => None
  end.

(** Versions are compared number by number, a missing number being 0. *)
Fixpoint against_zeros (b : list nat) : comparison :=
  match b with
  | [] => Eq
  | y :: b' => match Nat.compare 0 y with Eq => against_zeros b' | c => c end
  end.

Fixpoint version_compare (a b : list nat) {struct a} : comparison :=
  match a with
  | [] => against_zeros b
  | x :: a' =>
      match b with
      | [] => match Nat.compare x 0 with Eq => version_compare a' [] | c => c end
      | y :: b' => match Nat.compare x y with Eq => version_compare a' b' | c => c end
      end
  end.

(** Python [major.minor] is older than 3.7. *)
Definition below_3_7 (major minor : nat) : bool :=
  match version_compare [major; minor] [3; 7] with Lt => true | _ => false end.

Definition holds (operator : string) (c : comparison) : option bool :=
  if String.eqb operator ">=" then Some (match c with Lt => false | _ => true end)
  else if String.eqb operator "<" then Some (match c with Lt => true | _ => false end)
  else if String.eqb operator "<=" then Some (match c with Gt => false | _ => true end)
  else if String.eqb operator ">" then Some (match c with Gt => true | _ => false end)
  else if String.eqb operator "==" then Some (match c with Eq => true | _ => false end)
  else if String.eqb operator "!=" then Some (match c with Eq => false | _ => true end)
  else None.

(** Whether a requirement line applies under Python [major.minor]: a
    line without a marker always does, a line with the marker
    [python_version <operator> '<version>'] does when the comparison holds;
    [None] for a marker of another form. *)
Definition applies (line : string) (major minor : nat) : option bool :=
  match split_on ";" line with
  | [_] => Some true
  | [_; marker] =>
      match words marker with
      | [variable; operator; version] =>
          if String.eqb variable "python_version"
          then match quoted_version version with
               | Some v => holds operator (version_compare [major; minor] v)
               | None => None
               end
          else None
      | _ => None
      end
  | _ => None
  end.

(** The requirement lines that apply, and the lines whose marker could
    not be read. *)
Fixpoint applicable (lines : list string) (major minor : nat) : list string :=
  match lines with
  | [] => []
  | l :: rest =>
      match requirement_name l, applies l major minor with
      | Some _, Some true => l :: applicable rest major minor
      | _, _ => applicable rest major minor
      end
  end.

Fixpoint unreadable (lines : list string) (major minor : nat) : list string :=
  match lines with
  | [] => []
  | l :: rest =>
      match requirement_name l, applies l major minor with
      | Some _, None => l :: unreadable rest major minor
      | _, _ => unreadable rest major minor
      end
  end.

End Markers.

(** ** The glob of the library rule *)

Module Glob.
Import Build Markers.

(** Some suffix of [l] satisfies [matches]. *)
Fixpoint some_suffix {A} (matches : list A -> bool) (l : list A) : bool :=
  matches l
  || match l with
     | [] => false
     | _ :: rest => some_suffix matches rest
     end.

(** Within one path segment, [*] stands for any run of characters and
    every other character for itself. *)
Fixpoint segment_matches (pattern segment : list ascii) : bool :=
  match pattern with
  | [] => match segment with [] => true | _ :: _ => false end
  | p :: pattern' =>
      if Ascii.eqb p "*"
      then some_suffix (segment_matches pattern') segment
      else match segment with
           | c :: rest => Ascii.eqb p c && segment_matches pattern' rest
           | [] => false
           end
  end.

(** Segment by segment; a segment [**] stands for any number of whole
    segments, none included. *)
Fixpoint path_matches (pattern path : list string) : bool :=
  match pattern with
  | [] => match path with [] => true | _ :: _ => false end
  | p :: pattern' =>
      if String.eqb p "**"
      then some_suffix (path_matches pattern') path
      else match path with
           | s :: rest =>
               segment_matches (list_ascii_of_string p) (list_ascii_of_string s)
               && path_matches pattern' rest
           | [] => false
           end
  end.

Definition glob_matches (pattern : string) (path : list string) : bool :=
  path_matches (split_on "/" pattern) path.

(** [glob(include, exclude=exclude)] on a file given by its segments. *)
Definition in_glob (include exclude : list string) (path : list string) : bool :=
  existsb (fun p => glob_matches p path) include
  && negb (existsb (fun p => glob_matches p path) exclude).

(** Whether a file of the package is a source of a library rule. *)
Definition library_has (r : rule) (path : string) : bool :=
  match r with
  | py_library _ include exclude => in_glob include exclude (split_on "/" path)
  | py_test _ => false
  end.

End Glob.

(* ===================================================================== *)
(** * Part II: theorems                                                   *)
(* ===================================================================== *)

(** ** The manifests *)

Module ManifestFacts.
Import Requirements Build.

Example requirement_name_gym_extras :
  requirement_name "gym[atari]==0.19.0; python_version < '3.7'" = Some "gym".
Proof. reflexivity. Qed.

Example requirement_name_comment : requirement_name "#mlagents==0.28.0" = None.
Proof. reflexivity. Qed.

Example names_of_requirements :
  names_of requirements =
  [ "autorom"; "gym"; "gym"; "kaggle_environments"; "mlagents_envs"; "pettingzoo";
    "pymunk"; "supersuit"; "pybullet"; "recsim"; "tensorflow_estimator"; "open-spiel";
    "higher"; "pyglet"; "imageio-ffmpeg"; "starlette"; "onnx"; "onnxruntime"; "tf2onnx" ].
Proof. reflexivity. Qed.

Lemma has_requirement_In (n : string) :
  has_requirement n = true <-> In n (names_of requirements).
Proof.
  unfold has_requirement. rewrite existsb_exists. split.
  - intros (m & Hm & E). apply String.eqb_eq in E. now subst.
  - intros H. exists n. split; [exact H | apply String.eqb_refl].
Qed.

(** C7. The requirements list has an entry for each of gym, pettingzoo,
    pybullet, recsim and onnx; the pybullet entry stands right under the
    comment that gives it as the stand-in for MuJoCo-like environments. *)
Theorem requirements_list_ml_dependencies :
  In "gym" (names_of requirements) /\
  In "pettingzoo" (names_of requirements) /\
  In "pybullet" (names_of requirements) /\
  In "recsim" (names_of requirements) /\
  In "onnx" (names_of requirements) /\
  line_above "pybullet" None requirements
    = Some "# For testing in MuJoCo-like envs (in PyBullet).".
Proof.
  repeat split; try (apply has_requirement_In; reflexivity).
Qed.

Example py_tests_count : List.length (py_tests manifest) = 21.
Proof. reflexivity. Qed.

Lemma forallb_In {A} (p : A -> bool) (l : list A) :
  forallb p l = true -> forall x, In x l -> p x = true.
Proof. intros H x Hx. rewrite forallb_forall in H. now apply H. Qed.

(** C3, as stated, fails: the target [test_backend] is a [py_test] of the
    manifest whose only source is under [tests/], not under [examples/]. *)
Lemma not_every_py_test_is_an_example :
  ~ (forall t, In t (py_tests manifest) ->
       forall s, In s (srcs t) -> under "examples/" s = true).
Proof.
  intros H.
  specialize (H (mk_test "test_backend" "large" None
                   ["tests/test_backend.py"] ["team:ml"; "exclusive"] [":train_lib"] [])).
  assert (E : under "examples/" "tests/test_backend.py" = true).
  { apply H; simpl; intuition. }
  discriminate E.
Qed.

(** C3, amended. The nine [py_test] targets of the section headed "Tests
    from the python/ray/train/examples directory" point at example
    scripts: every source, and the [main] script, lies under [examples/];
    the twelve of the section headed "... tests directory" have their
    sources under [tests/]. *)
Theorem py_test_sections_point_at_their_directories :
  (forall t, In t (py_tests examples_section) ->
     (forall s, In s (srcs t) -> under "examples/" s = true) /\
     (exists m, main t = Some m /\ under "examples/" m = true /\ srcs t = [m])) /\
  (forall t, In t (py_tests tests_section) ->
     forall s, In s (srcs t) -> under "tests/" s = true /\ under "examples/" s = false) /\
  py_tests manifest = py_tests examples_section ++ py_tests tests_section /\
  List.length (py_tests examples_section) = 9 /\
  List.length (py_tests tests_section) = 12.
Proof.
  split; [| split; [| repeat split]].
  - intros t Ht. simpl in Ht.
    repeat (destruct Ht as [<- | Ht];
            [ split; [ intros s [<- | []]; reflexivity
                     | eexists; repeat split; reflexivity ] | ]).
    destruct Ht.
  - intros t Ht. simpl in Ht.
    repeat (destruct Ht as [<- | Ht];
            [ intros s [<- | []]; split; reflexivity | ]).
    destruct Ht.
Qed.

(** C4. The manifest wires both kinds of script into the test runner:
    some [py_test] targets have their sources under [examples/], some
    under [tests/], every one has them under one of the two, and every
    one depends on [:train_lib], the library the manifest declares. *)
Theorem manifest_wires_examples_and_tests :
  (exists t, In t (py_tests manifest) /\ srcs t <> [] /\ srcs_under "examples/" t = true) /\
  (exists t, In t (py_tests manifest) /\ srcs t <> [] /\ srcs_under "tests/" t = true) /\
  (forall t, In t (py_tests manifest) ->
     srcs_under "examples/" t = true \/ srcs_under "tests/" t = true) /\
  (forall t, In t (py_tests manifest) -> deps t = [":train_lib"]) /\
  (forall t, In t (py_tests manifest) -> depends_on ":train_lib" t = true) /\
  declares_library "train_lib" manifest = true.
Proof.
  split; [| split; [| split; [| split; [| split]]]].
  - exists (mk_test "tune_linear_example" "medium"
              (Some "examples/tune_linear_example.py")
              ["examples/tune_linear_example.py"]
              ["team:ml"; "exclusive"; "tune"] [":train_lib"] ["--smoke-test"]).
    split; [simpl; intuition | split; [discriminate | reflexivity]].
  - exists (mk_test "test_utils" "small" None
              ["tests/test_utils.py"] ["team:ml"; "exclusive"] [":train_lib"] []).
    split; [simpl; intuition | split; [discriminate | reflexivity]].
  - intros t H. apply forallb_In with
      (p := fun t => (srcs_under "examples/" t || srcs_under "tests/" t)%bool)
      (l := py_tests manifest) in H as E; [| reflexivity].
    apply orb_true_iff in E. exact E.
  - intros t H. apply forallb_In with
      (p := fun t => if list_eq_dec string_dec (deps t) [":train_lib"] then true else false)
      (l := py_tests manifest) in H as E; [| reflexivity].
    destruct (list_eq_dec string_dec (deps t) [":train_lib"]); [assumption | discriminate].
  - intros t H. apply forallb_In with (p := depends_on ":train_lib") (l := py_tests manifest) in H as E;
      [exact E | reflexivity].
  - reflexivity.
Qed.

End ManifestFacts.

(** ** Frames *)

Module PandasFacts.
Import Python Pandas.

Lemma same_index_refl (l : list nat) : same_index l l = true.
Proof. unfold same_index. destruct (list_eq_dec Nat.eq_dec l l); congruence. Qed.

Lemma same_index_eq (a b : list nat) : same_index a b = true -> a = b.
Proof. unfold same_index. destruct (list_eq_dec Nat.eq_dec a b); congruence. Qed.

Lemma length_RangeIndex (n : nat) : List.length (RangeIndex n) = n.
Proof. apply length_seq. Qed.

Lemma length_list_times {A} (l : list A) (k : nat) :
  List.length (list_times l k) = k * List.length l.
Proof. induction k; simpl; [reflexivity |]. rewrite length_app, IHk. lia. Qed.

Lemma ceil_half_covers (n : nat) : n <= ceil_half n * 2.
Proof.
  unfold ceil_half. rewrite Nat.div2_div.
  pose proof (Nat.div_mod_eq (S n) 2) as E.
  pose proof (Nat.mod_upper_bound (S n) 2). lia.
Qed.

Section Columns.
Context {A : Type}.
Implicit Types (df : Frame A) (label : string) (values : list A).

Lemma index_set_column label values df :
  index (set_column label values df) = index df.
Proof. unfold set_column. destruct (has_column label df); reflexivity. Qed.

Lemma len_set_column label values df : len (set_column label values df) = len df.
Proof. unfold len. now rewrite index_set_column. Qed.

Lemma names_set_column label values df :
  names (set_column label values df)
  = if has_column label df then names df else names df ++ [label].
Proof.
  unfold set_column, names. destruct (has_column label df); simpl.
  - rewrite map_map. apply map_ext. intros [n d]; simpl.
    destruct (String.eqb n label); reflexivity.
  - now rewrite map_app.
Qed.

Lemma has_column_In label df : has_column label df = true <-> In label (names df).
Proof.
  unfold has_column. rewrite existsb_exists. split.
  - intros (n & Hn & E). apply String.eqb_eq in E. now subst.
  - intros H. exists label. split; [exact H | apply String.eqb_refl].
Qed.

Lemma has_column_set_column label values df :
  has_column label (set_column label values df) = true.
Proof.
  apply has_column_In. rewrite names_set_column.
  destruct (has_column label df) eqn:E.
  - now apply has_column_In.
  - apply in_or_app. right. now left.
Qed.

Lemma has_column_set_column_kept label label' values df :
  has_column label' df = true -> has_column label' (set_column label values df) = true.
Proof.
  rewrite !has_column_In, names_set_column. intros H.
  destruct (has_column label df); [exact H | apply in_or_app; now left].
Qed.

(** A new label goes last and leaves the columns before it alone. *)
Lemma columns_set_column_new label values df :
  has_column label df = false ->
  columns (set_column label values df) = columns df ++ [(label, values)].
Proof. unfold set_column. now intros ->. Qed.

End Columns.

Lemma length_categorical (n : nat) :
  List.length (SklearnExample.categorical_values n) = n.
Proof.
  unfold SklearnExample.categorical_values.
  rewrite length_firstn, length_list_times. simpl.
  pose proof (ceil_half_covers n). lia.
Qed.

Lemma names_rows_at positions df : names (rows_at positions df) = names df.
Proof. unfold names, rows_at; simpl. rewrite map_map. reflexivity. Qed.

Lemma names_columns_from data j labels : map fst (columns_from data j labels) = labels.
Proof.
  revert j. induction labels as [| n rest IH]; intros j; simpl; [reflexivity |].
  now rewrite IH.
Qed.

Lemma find_column_without label n (cols : list (string * list cell)) :
  n <> label ->
  find_column n (filter (fun c => negb (String.eqb (fst c) label)) cols)
  = find_column n cols.
Proof.
  intros Hn. induction cols as [| [m d] rest IH]; simpl; [reflexivity |].
  destruct (String.eqb m label) eqn:E; simpl.
  - apply String.eqb_eq in E. subst m.
    destruct (String.eqb label n) eqn:E'; [| exact IH].
    apply String.eqb_eq in E'. congruence.
  - rewrite IH. reflexivity.
Qed.

Lemma find_column_without_same label (cols : list (string * list cell)) :
  find_column label (filter (fun c => negb (String.eqb (fst c) label)) cols) = None.
Proof.
  induction cols as [| [m d] rest IH]; simpl; [reflexivity |].
  destruct (String.eqb m label) eqn:E; simpl; [exact IH |].
  rewrite E. exact IH.
Qed.

Lemma names_without label df :
  names (without label df) = filter (fun n => negb (String.eqb n label)) (names df).
Proof.
  unfold names, without; simpl.
  induction (columns df) as [| [m d] rest IH]; simpl; [reflexivity |].
  destruct (String.eqb m label); simpl; now rewrite IH.
Qed.

End PandasFacts.

(** ** Runs on small inputs *)

Module Checks.
Import Python Pandas Ray Air Conditions SklearnExample UploadToWandb Toy.

Example categorical_values_5 :
  categorical_values 5 = [CStr "A"; CStr "B"; CStr "A"; CStr "B"; CStr "A"].
Proof. reflexivity. Qed.

(** One half itself is not above one half; NaN is not either. *)
Example to_labels_floats :
  to_labels (mk_frame [7; 8; 9; 10]
               [("predictions", [CFloat half; CFloat three_quarters; NaN; CInt 1])])
  = Returned (mk_frame [7; 8; 9; 10]
                [("predictions", [CInt 0; CInt 1; CInt 0; CInt 1])]).
Proof. reflexivity. Qed.

Example to_labels_string :
  to_labels (mk_frame [0] [("predictions", [CStr "benign"])])
  = Raised (TypeError "'>' not supported between instances of 'str' and 'float'").
Proof. reflexivity. Qed.

Example drop_missing_column :
  drop "target" (mk_frame [0] [("mean radius", [CFloat one])]) = Raised (KeyError "target").
Proof. reflexivity. Qed.

Example setitem_array_wrong_length :
  returns (setitem_array "target" [CInt 0] (mk_frame [0; 1] [("mean radius", [CFloat one; CFloat two])]))
  = false.
Proof. reflexivity. Qed.

(** A frame without rows takes the rows of what is assigned to it. *)
Example setitem_array_on_empty_frame :
  setitem_array "target" [CInt 0; CInt 1] (mk_frame [] [("mean radius", [])])
  = Returned (mk_frame [0; 1] [("mean radius", [NaN; NaN]); ("target", [CInt 0; CInt 1])]).
Proof. reflexivity. Qed.

(** A series on other row labels is aligned, NaN where it has no value. *)
Example setitem_series_aligns :
  setitem_series "target" (mk_series [1; 0] [CInt 10; CInt 20])
    (mk_frame [0; 1; 2] [("mean radius", [CFloat one; CFloat two; CFloat one])])
  = Returned (mk_frame [0; 1; 2]
                [("mean radius", [CFloat one; CFloat two; CFloat one]);
                 ("target", [CInt 20; CInt 10; NaN])]).
Proof. reflexivity. Qed.

(** Blocks of different columns are padded with NaN when gathered. *)
Example concat_blocks_pads :
  concat_blocks [ mk_frame [5] [("a", [CInt 1])]; mk_frame [6] [("b", [CInt 2])] ]
  = mk_frame [0; 1] [("a", [CInt 1; NaN]); ("b", [NaN; CInt 2])].
Proof. reflexivity. Qed.

Example train_sklearn_gpu_with_cuml :
  exists trainer w',
    train_sklearn (F := toy true) 2%Z true start = (Returned (toy_result 1), w') /\
    In (Ev_fit_sklearn trainer) (log w') /\
    sk_estimator trainer = new_estimator cuml_RandomForestClassifier /\
    sk_scaling_config trainer
    = [("trainer_resources", ConfigDict [("CPU", 1%Z); ("GPU", 1%Z)])].
Proof.
  eexists _, _. split; [vm_compute; reflexivity |].
  split; [cbn; do 6 right; left; reflexivity |]. split; reflexivity.
Qed.

Example train_model_on_toy :
  fst (train_model (F := toy false) [] "ray_air_example" start) = Returned (toy_result 0).
Proof. reflexivity. Qed.

End Checks.

(** ** sklearn_example.ipynb: preparing the data *)

Module PrepareFacts.
Import Python Pandas Ray Air Conditions SklearnExample PandasFacts.

Lemma pd_DataFrame_ok (b : Bunch) :
  bunch_ok b = true ->
  pd_DataFrame (data b) (feature_names b)
  = Returned (mk_frame (RangeIndex (List.length (data b)))
                (columns_from (data b) 0 (feature_names b))).
Proof.
  unfold bunch_ok, pd_DataFrame. intros H.
  apply andb_true_iff in H as [-> _]. reflexivity.
Qed.

Lemma ensure_valid_index_same (value_index : list nat) (df : DataFrame) :
  List.length value_index = len df -> ensure_valid_index value_index df = df.
Proof.
  unfold ensure_valid_index, len. destruct (index df); [| reflexivity].
  destruct value_index; [reflexivity | discriminate].
Qed.

Lemma setitem_array_ok label values df :
  List.length values = len df ->
  setitem_array label values df = Returned (set_column label values df).
Proof.
  unfold setitem_array. intros H.
  rewrite ensure_valid_index_same by now rewrite length_RangeIndex.
  rewrite H. now rewrite Nat.eqb_refl.
Qed.

Lemma setitem_series_ok label s df :
  s_index s = index df ->
  setitem_series label s df = Returned (set_column label (s_values s) df).
Proof.
  unfold setitem_series. intros H.
  rewrite ensure_valid_index_same by (unfold len; now rewrite H).
  rewrite H. now rewrite same_index_refl.
Qed.

(** A series whose labels are those of the frame, or do not repeat, can
    be assigned. *)
Lemma setitem_series_returns label s df :
  (same_index (s_index s) (index df) || nodupb (s_index s))%bool = true ->
  returns (setitem_series label s df) = true.
Proof.
  intros H. destruct (same_index (s_index s) (index df)) eqn:E.
  - apply same_index_eq in E. now rewrite (setitem_series_ok _ _ _ E).
  - simpl in H. unfold setitem_series. cbv zeta. rewrite H.
    destruct (same_index (s_index s) (index (ensure_valid_index (s_index s) df)));
      reflexivity.
Qed.

Lemma iloc_ok positions df :
  forallb (fun p => p <? len df) positions = true ->
  iloc positions df = Returned (rows_at positions df).
Proof. unfold iloc. now intros ->. Qed.

Lemma drop_ok label df :
  has_column label df = true -> drop label df = Returned (without label df).
Proof. unfold drop. now intros ->. Qed.

Lemma len_dataset_frame (b : Bunch) : len (dataset_frame b) = List.length (data b).
Proof.
  unfold dataset_frame. cbv zeta. rewrite !len_set_column.
  unfold len; simpl. apply length_RangeIndex.
Qed.

Lemma has_target_dataset_frame (b : Bunch) : has_column "target" (dataset_frame b) = true.
Proof.
  unfold dataset_frame. cbv zeta.
  apply has_column_set_column_kept, has_column_set_column.
Qed.

Section Run.
Context {F : Framework}.

(** Under well-shaped arrays and in-range positions [prepare_data]
    returns, and this is what it returns and what it has called. *)
Lemma prepare_data_runs (w : World) :
  let b : Bunch := load_breast_cancer_data false in
  let full := dataset_frame b in
  let chosen := split_choice (rng w) (List.length (data b)) (3 # 10) in
  bunch_ok b = true ->
  positions_ok (List.length (data b)) chosen = true ->
  prepare_data w
  = (Returned ([rows_at (fst chosen) full],
               [rows_at (snd chosen) full],
               [without "target" (rows_at (snd chosen) full)]),
     mk_world (S (rng w))
       (log w ++ [ Ev_load_breast_cancer false
                 ; Ev_train_test_split full (3 # 10)
                 ; Ev_from_pandas (rows_at (fst chosen) full)
                 ; Ev_from_pandas (rows_at (snd chosen) full)
                 ; Ev_from_pandas (without "target" (rows_at (snd chosen) full)) ])).
Proof.
  intros b full chosen Hb Hp.
  assert (Hlen : List.length (target b) = List.length (data b)).
  { unfold bunch_ok in Hb. apply andb_true_iff in Hb as [_ Hb].
    now apply Nat.eqb_eq in Hb. }
  apply andb_true_iff in Hp as [Htrain Htest].
  unfold prepare_data, load_breast_cancer, train_test_split, from_pandas.
  unfold bind, emit, ret, lift, draw. cbn [fst snd rng log].
  fold b. rewrite (pd_DataFrame_ok b Hb).
  rewrite setitem_array_ok
    by (unfold len; cbn [index]; now rewrite length_RangeIndex).
  rewrite len_set_column. unfold len at 1 2. cbn [index]. rewrite length_RangeIndex.
  rewrite setitem_series_ok
    by (unfold pd_Series; cbn [s_index]; rewrite length_categorical, index_set_column;
        reflexivity).
  unfold pd_Series. cbn [s_values]. fold (dataset_frame b). fold full.
  pose proof (len_dataset_frame b) as Hl. fold full in Hl.
  unfold len in Hl |- *. rewrite !Hl. fold chosen.
  rewrite !iloc_ok by (unfold len; now rewrite Hl).
  cbn [fst snd].
  rewrite drop_ok
    by (apply has_column_In; rewrite names_rows_at; apply has_column_In;
        apply has_target_dataset_frame).
  cbn [rng log]. rewrite <- !app_assoc. reflexivity.
Qed.

End Run.
End PrepareFacts.

Module PrepareClaims.
Import Python Pandas Ray Air Conditions SklearnExample PandasFacts PrepareFacts.

(** C8. For every split the framework may choose, [prepare_data] returns,
    and its third dataset is its second with exactly the "target" column
    removed: the same row labels in the same order, and the other columns,
    in their order, with their values unchanged. *)
Theorem test_dataset_is_validation_without_target {F : Framework} (w : World) :
  let b : Bunch := load_breast_cancer_data false in
  let chosen := split_choice (rng w) (List.length (data b)) (3 # 10) in
  bunch_ok b = true ->
  positions_ok (List.length (data b)) chosen = true ->
  exists train valid test w',
    prepare_data w = (Returned (train, [valid], [test]), w') /\
    valid = rows_at (snd chosen) (dataset_frame b) /\
    index test = index valid /\
    columns test = filter (fun c => negb (String.eqb (fst c) "target")) (columns valid) /\
    In "target" (names valid) /\
    ~ In "target" (names test) /\
    (forall label, label <> "target" -> column label test = column label valid).
Proof.
  intros b chosen Hb Hp.
  pose proof (prepare_data_runs w Hb Hp) as Hrun. cbv zeta in Hrun.
  fold b in Hrun. fold chosen in Hrun.
  eexists _, (rows_at (snd chosen) (dataset_frame b)),
    (without "target" (rows_at (snd chosen) (dataset_frame b))), _.
  split; [exact Hrun |]. split; [reflexivity |].
  split; [reflexivity |]. split; [reflexivity |]. split; [| split].
  - rewrite names_rows_at. apply has_column_In, has_target_dataset_frame.
  - rewrite names_without, filter_In. intros [_ H].
    rewrite String.eqb_refl in H. discriminate H.
  - intros label Hl. unfold column, without. cbn [columns].
    now apply find_column_without.
Qed.

(** The theorem above on the small framework. *)
Lemma test_dataset_is_validation_without_target_witness :
  exists train valid test w',
    prepare_data (F := Toy.toy false) Toy.start
    = (Returned (train, [valid], [test]), w') /\
    names valid = ["mean radius"; "mean texture"; "target"; "categorical_column"] /\
    names test = ["mean radius"; "mean texture"; "categorical_column"] /\
    index test = [2; 0].
Proof.
  destruct (test_dataset_is_validation_without_target (F := Toy.toy false) Toy.start)
    as (train & valid & test & w' & Hrun & Hvalid & Hindex & Hcols & _).
  - vm_compute. reflexivity.
  - vm_compute. reflexivity.
  - exists train, valid, test, w'. split; [exact Hrun |].
    unfold names. rewrite Hindex, Hcols, Hvalid. vm_compute. repeat split.
Defined.

End PrepareClaims.

(** ** upload_to_wandb.ipynb *)

Module WandbClaims.
Import Python Pandas Ray Air Conditions UploadToWandb PandasFacts PrepareFacts.

Lemma find_column_app_old {A} label (cols more : list (string * list A)) :
  In label (map fst cols) ->
  find_column label (cols ++ more) = find_column label cols.
Proof.
  induction cols as [| [n d] rest IH]; simpl; [intros [] |].
  intros [-> | H].
  - now rewrite String.eqb_refl.
  - destruct (String.eqb n label); [reflexivity | now apply IH].
Qed.

Lemma find_column_app_new {A} label (cols more : list (string * list A)) :
  ~ In label (map fst cols) ->
  find_column label (cols ++ more) = find_column label more.
Proof.
  induction cols as [| [n d] rest IH]; simpl; [reflexivity |].
  intros H. destruct (String.eqb n label) eqn:E.
  - apply String.eqb_eq in E. tauto.
  - apply IH. tauto.
Qed.

(** C9. On the breast-cancer bunch (a frame and a label series on the same
    rows, no feature called "target") [get_train_dataset] returns one block
    that is the loaded frame with one more column, last, called "target"
    and holding the raw labels: the row labels and every feature column are
    as loaded, none is removed or changed. *)
Theorem get_train_dataset_only_adds_target {F : Framework} (w : World) :
  let b : FrameBunch := load_breast_cancer_data true in
  frame_bunch_ok b = true ->
  exists df,
    get_train_dataset w
    = (Returned [df],
       mk_world (rng w) (log w ++ [Ev_load_breast_cancer true; Ev_from_pandas df])) /\
    index df = index (frame_data b) /\
    columns df = columns (frame_data b) ++ [("target", s_values (frame_target b))] /\
    (forall label, In label (names (frame_data b)) ->
                   column label df = column label (frame_data b)) /\
    column "target" df = Some (s_values (frame_target b)).
Proof.
  intros b Hb. unfold frame_bunch_ok in Hb.
  apply andb_true_iff in Hb as [Hidx Hnew].
  apply same_index_eq in Hidx. apply negb_true_iff in Hnew.
  exists (set_column "target" (s_values (frame_target b)) (frame_data b)).
  assert (Hcols : columns (set_column "target" (s_values (frame_target b)) (frame_data b))
                  = columns (frame_data b) ++ [("target", s_values (frame_target b))])
    by now apply columns_set_column_new.
  split; [| split; [apply index_set_column | split; [exact Hcols | split]]].
  - unfold get_train_dataset, load_breast_cancer, from_pandas.
    unfold bind, emit, ret, lift. cbn [fst snd rng log]. fold b.
    rewrite (setitem_series_ok _ _ _ Hidx). cbn [rng log].
    rewrite <- app_assoc. reflexivity.
  - intros label Hl. unfold column. rewrite Hcols.
    now apply find_column_app_old.
  - unfold column. rewrite Hcols, find_column_app_new.
    + reflexivity.
    + intros H. apply (has_column_In (A := cell)) in H. congruence.
Qed.

(** The theorem above on the small framework. *)
Lemma get_train_dataset_only_adds_target_witness :
  exists df w',
    get_train_dataset (F := Toy.toy false) Toy.start = (Returned [df], w') /\
    names df = ["mean radius"; "mean texture"; "target"] /\
    column "target" df = Some [CInt 0; CInt 1; CInt 1].
Proof.
  destruct (get_train_dataset_only_adds_target (F := Toy.toy false) Toy.start)
    as (df & Hrun & _ & Hcols & _ & Htarget).
  - vm_compute. reflexivity.
  - exists df. eexists. split; [exact Hrun |].
    split; [unfold names; rewrite Hcols; reflexivity | exact Htarget].
Defined.

(** C5. For every train dataset and project name, [train_model] constructs
    one [XGBoostTrainer], fits it, and returns what the fit returns; the
    trainer's run configuration registers exactly one callback, the
    [WandbLoggerCallback] of the given project with [save_checkpoints]
    true, and the dataset is its "train" dataset. *)
Theorem train_model_registers_wandb_callback {F : Framework}
  (train_dataset : Dataset) (wandb_project : string) (w : World) :
  exists trainer,
    train_model train_dataset wandb_project w
    = (Returned (XGBoostTrainer_fit (rng w) trainer),
       mk_world (S (rng w)) (log w ++ [Ev_XGBoostTrainer trainer; Ev_fit_xgboost trainer])) /\
    callbacks (xgb_run_config trainer) = [WandbLoggerCallback wandb_project true] /\
    xgb_datasets trainer = [("train", train_dataset)] /\
    xgb_label_column trainer = "target" /\
    xgb_num_boost_round trainer = 10%Z /\
    xgb_scaling_config trainer = [("num_workers", ConfigInt 2)] /\
    xgb_params trainer = [("tree_method", "auto")].
Proof.
  eexists. split.
  - unfold train_model, new_XGBoostTrainer, fit_xgboost, bind, emit, draw, ret.
    cbn [rng log]. rewrite <- app_assoc. reflexivity.
  - cbn. repeat split.
Qed.

End WandbClaims.

(** ** Labels from predictions *)

Module LabelFacts.
Import Python Pandas Ray Air Conditions SklearnExample PandasFacts.

Lemma all_returned_map {A B} (fn : A -> Outcome B) (g : A -> B) (l : list A) :
  (forall a, In a l -> fn a = Returned (g a)) ->
  all_returned fn l = Returned (map g l).
Proof.
  induction l as [| a rest IH]; intros H; simpl; [reflexivity |].
  rewrite (H a) by now left. simpl.
  rewrite IH by (intros; apply H; now right). reflexivity.
Qed.

Lemma gt_half_comparable (c : cell) :
  comparable c = true -> gt_half c = Returned (above_half c).
Proof. destruct c; simpl; intros H; [reflexivity .. | discriminate | reflexivity]. Qed.

Lemma In_cells {A} (df : Frame A) (c : string * list A) (x : A) :
  In c (columns df) -> In x (snd c) -> In x (cells df).
Proof.
  intros Hc Hx. unfold cells. apply in_concat.
  exists (snd c). split; [now apply in_map | exact Hx].
Qed.

Lemma to_labels_comparable (df : DataFrame) :
  comparable_frame df = true -> to_labels df = Returned (labels_of df).
Proof.
  intros H. unfold comparable_frame in H. rewrite forallb_forall in H.
  unfold to_labels, gt_0_5, frame_traverse.
  rewrite all_returned_map with (g := fun c => (fst c, map above_half (snd c))).
  - simpl. unfold as_object, astype_int, labels_of, frame_map. cbn [index columns].
    f_equal. f_equal. rewrite !map_map. apply map_ext. intros c. cbn [fst snd].
    rewrite !map_map. reflexivity.
  - intros c Hc.
    rewrite all_returned_map with (g := above_half); [reflexivity |].
    intros x Hx. apply gt_half_comparable, H. now apply In_cells with c.
Qed.

Lemma numeric_comparable (c : cell) : numeric c = true -> comparable c = true.
Proof. destruct c; simpl; congruence. Qed.

Lemma real_valued_comparable (df : DataFrame) :
  real_valued df = true -> comparable_frame df = true.
Proof.
  unfold real_valued, comparable_frame. rewrite !forallb_forall.
  intros H x Hx. now apply numeric_comparable, H.
Qed.

Lemma map_batches_to_labels (ds : Dataset) :
  forallb comparable_frame ds = true ->
  map_batches to_labels ds = Returned (map labels_of ds).
Proof.
  intros H. rewrite forallb_forall in H. unfold map_batches.
  apply all_returned_map. intros df Hdf. now apply to_labels_comparable, H.
Qed.

Section FrameMap.
Context {A B : Type} (f : A -> B).

Lemma names_frame_map (df : Frame A) : names (frame_map f df) = names df.
Proof. unfold names, frame_map; simpl. now rewrite map_map. Qed.

Lemma len_frame_map (df : Frame A) : len (frame_map f df) = len df.
Proof. reflexivity. Qed.

Lemma has_column_frame_map label (df : Frame A) :
  has_column label (frame_map f df) = has_column label df.
Proof. unfold has_column. now rewrite names_frame_map. Qed.

Lemma find_column_map label (cols : list (string * list A)) :
  find_column label (map (fun c => (fst c, map f (snd c))) cols)
  = option_map (map f) (find_column label cols).
Proof.
  induction cols as [| [n d] rest IH]; simpl; [reflexivity |].
  destruct (String.eqb n label); [reflexivity | exact IH].
Qed.

Lemma cells_frame_map (df : Frame A) : cells (frame_map f df) = map f (cells df).
Proof.
  unfold cells, frame_map; simpl. rewrite map_map. simpl.
  rewrite concat_map, map_map. reflexivity.
Qed.

End FrameMap.

Lemma find_column_In {A} label (cols : list (string * list A)) :
  In label (map fst cols) -> exists d, find_column label cols = Some d.
Proof.
  induction cols as [| [n d] rest IH]; simpl; [intros [] |].
  intros [-> | H].
  - rewrite String.eqb_refl. now exists d.
  - destruct (String.eqb n label); [now exists d | now apply IH].
Qed.

Lemma same_names_eq (a b : DataFrame) : same_names a b = true -> names a = names b.
Proof. unfold same_names. destruct (list_eq_dec string_dec (names a) (names b)); congruence. Qed.

Lemma filter_none {A} (p : A -> bool) (l : list A) :
  (forall x, In x l -> p x = false) -> filter p l = [].
Proof.
  induction l as [| x rest IH]; intros H; simpl; [reflexivity |].
  rewrite (H x) by now left. apply IH. intros y Hy. apply H. now right.
Qed.

(** With the same columns on both sides nothing is filled in. *)
Lemma columns_append_rows_same (a b : DataFrame) :
  names b = names a ->
  columns (append_rows a b)
  = map (fun c => (fst c, snd c ++ match column (fst c) b with
                                   | Some d => d
                                   | None => []
                                   end)) (columns a).
Proof.
  intros E. unfold append_rows. cbn [columns].
  replace (filter (fun c => negb (has_column (fst c) a)) (columns b)) with
    (@nil (string * list cell)).
  - simpl. rewrite app_nil_r. apply map_ext_in. intros c Hc.
    destruct (find_column_In (fst c) (columns b)) as (d & Hd).
    + fold (names b). rewrite E. now apply in_map.
    + unfold column. now rewrite Hd.
  - symmetry. apply filter_none.
    intros c Hc. apply negb_false_iff, has_column_In.
    rewrite <- E. now apply in_map.
Qed.

Lemma names_append_rows_same (a b : DataFrame) :
  names b = names a -> names (append_rows a b) = names a.
Proof.
  intros E. unfold names at 1. rewrite (columns_append_rows_same a b E).
  rewrite map_map. reflexivity.
Qed.

Lemma labels_of_append_rows (a b : DataFrame) :
  names b = names a ->
  append_rows (labels_of a) (labels_of b) = labels_of (append_rows a b).
Proof.
  intros E.
  assert (E' : names (labels_of b) = names (labels_of a))
    by (unfold labels_of; now rewrite !names_frame_map).
  destruct (append_rows (labels_of a) (labels_of b)) as [i cols] eqn:L.
  destruct (labels_of (append_rows a b)) as [i' cols'] eqn:R.
  assert (Hi : i = i').
  { change i with (index (mk_frame i cols)). change i' with (index (mk_frame i' cols')).
    rewrite <- L, <- R. reflexivity. }
  assert (Hc : cols = cols').
  { change cols with (columns (mk_frame i cols)).
    change cols' with (columns (mk_frame i' cols')).
    rewrite <- L, <- R. rewrite (columns_append_rows_same _ _ E').
    unfold labels_of at 3. unfold frame_map at 1. cbn [columns].
    rewrite (columns_append_rows_same _ _ E).
    unfold labels_of, frame_map. cbn [columns]. rewrite !map_map.
    apply map_ext. intros c. cbn [fst snd]. f_equal.
    unfold column. cbn [columns]. rewrite find_column_map.
    destruct (find_column (fst c) (columns b)); simpl;
      now rewrite map_app. }
  now subst.
Qed.

Lemma labels_of_fold_append (rest : list DataFrame) (b : DataFrame) :
  forallb (fun b' => same_names b' b) rest = true ->
  fold_left append_rows (map labels_of rest) (labels_of b)
  = labels_of (fold_left append_rows rest b).
Proof.
  revert b. induction rest as [| b' rest IH]; intros b H; simpl; [reflexivity |].
  simpl in H. apply andb_true_iff in H as [Hb' Hrest].
  apply same_names_eq in Hb'.
  rewrite (labels_of_append_rows b b' Hb'). apply IH.
  rewrite forallb_forall in Hrest |- *. intros x Hx.
  specialize (Hrest x Hx). apply same_names_eq in Hrest.
  unfold same_names. rewrite (names_append_rows_same b b' Hb'), Hrest.
  destruct (list_eq_dec string_dec (names b) (names b)); congruence.
Qed.

(** Labelling batch by batch and then gathering the batches is labelling
    the gathered predictions. *)
Lemma concat_blocks_labels (ds : Dataset) :
  one_schema ds = true ->
  concat_blocks (map labels_of ds) = labels_of (concat_blocks ds).
Proof.
  destruct ds as [| b rest]; intros H; [reflexivity |].
  simpl in H. unfold concat_blocks. cbn [map].
  rewrite (labels_of_fold_append rest b H). reflexivity.
Qed.

Lemma label_cell_binary (c : cell) : label_cell c = CInt 0 \/ label_cell c = CInt 1.
Proof. unfold label_cell. destruct (above_half c); simpl; auto. Qed.

Lemma cells_labels_of_binary (df : DataFrame) :
  Forall (fun c => c = CInt 0 \/ c = CInt 1) (cells (labels_of df)).
Proof.
  unfold labels_of. rewrite cells_frame_map. apply Forall_map, Forall_forall.
  intros c _. apply label_cell_binary.
Qed.

End LabelFacts.

(** ** Comparing a binary64 float with one half *)

Module FloatFacts.
Import Python Pandas Conditions.
Local Open Scope Z_scope.

Lemma digits2_pos_bounds (m : positive) :
  2 ^ (Zpos (digits2_pos m) - 1) <= Zpos m < 2 ^ Zpos (digits2_pos m).
Proof.
  assert (Hstep : forall d : positive, 2 ^ Zpos d = 2 * 2 ^ (Zpos d - 1)).
  { intros d. replace (Zpos d) with (Z.succ (Zpos d - 1)) at 1 by lia.
    rewrite Z.pow_succ_r by lia. reflexivity. }
  induction m as [m IH | m IH |]; cbn [digits2_pos].
  - rewrite Pos2Z.inj_succ. replace (Z.succ (Zpos (digits2_pos m)) - 1)
      with (Zpos (digits2_pos m)) by lia.
    rewrite Z.pow_succ_r by lia. rewrite (Hstep (digits2_pos m)) in *.
    rewrite (Pos2Z.inj_xI m). clear Hstep.
    set (X := 2 ^ (Zpos (digits2_pos m) - 1)) in *. clearbody X. lia.
  - rewrite Pos2Z.inj_succ. replace (Z.succ (Zpos (digits2_pos m)) - 1)
      with (Zpos (digits2_pos m)) by lia.
    rewrite Z.pow_succ_r by lia. rewrite (Hstep (digits2_pos m)) in *.
    rewrite (Pos2Z.inj_xO m). clear Hstep.
    set (X := 2 ^ (Zpos (digits2_pos m) - 1)) in *. clearbody X. lia.
  - simpl. lia.
Qed.

Lemma bounded_canonical (m : positive) (e : Z) :
  bounded 53 1024 m e = true ->
  Z.max (Zpos (digits2_pos m) + e - 53) (-1074) = e.
Proof.
  unfold bounded, canonical_mantissa, fexp, emin. intros H.
  apply andb_true_iff in H as [H _]. apply Z.eqb_eq in H. exact H.
Qed.

Lemma scaled_positive (m : positive) (e : Z) : (0 < scaled m e)%Q.
Proof.
  destruct e as [| p | p]; unfold scaled, Qlt; cbn [Qnum Qden inject_Z]; lia.
Qed.

(** Above one half, for a positive binary64 float in canonical form. *)
Lemma scaled_above_half (m : positive) (e : Z) :
  bounded 53 1024 m e = true ->
  (match Z.compare (-53) e with
   | Lt => Lt
   | Gt => Gt
   | Eq => Pos.compare_cont Eq 4503599627370496 m
   end = Lt) <-> (1 # 2 < scaled m e)%Q.
Proof.
  intros Hb. apply bounded_canonical in Hb.
  pose proof (digits2_pos_bounds m) as Hd.
  destruct (Z.compare_spec (-53) e) as [He | He | He].
  - subst e. change (Pos.compare_cont Eq 4503599627370496 m)
      with (Pos.compare 4503599627370496 m).
    rewrite Pos.compare_lt_iff. unfold scaled, Qlt. cbn [Qnum Qden].
    change (Zpos (2 ^ 53)) with 9007199254740992. lia.
  - split; [intros _ | reflexivity].
    destruct e as [| p | p]; unfold scaled, Qlt; cbn [Qnum Qden inject_Z].
    + lia.
    + pose proof (Z.pow_pos_nonneg 2 (Zpos p)). nia.
    + rewrite Pos2Z.inj_pow.
      assert (Hdig : Zpos (digits2_pos m) = 53) by lia.
      rewrite Hdig in Hd. change (2 ^ (53 - 1)) with 4503599627370496 in Hd.
      assert (2 ^ Zpos p <= 2 ^ 52) by (apply Z.pow_le_mono_r; lia).
      change (2 ^ 52) with 4503599627370496 in *. lia.
  - split; [discriminate |]. intros Hlt. exfalso.
    destruct e as [| p | p]; try lia.
    unfold scaled, Qlt in Hlt. cbn [Qnum Qden] in Hlt.
    rewrite Pos2Z.inj_pow in Hlt.
    assert (Hdig : Zpos (digits2_pos m) <= 53) by lia.
    assert (2 ^ Zpos (digits2_pos m) <= 2 ^ 53) by (apply Z.pow_le_mono_r; lia).
    assert (2 ^ 54 <= 2 ^ Zpos p) by (apply Z.pow_le_mono_r; lia).
    change (2 ^ 53) with 9007199254740992 in *.
    change (2 ^ 54) with 18014398509481984 in *. lia.
Qed.

(** The IEEE comparison with 0.5 says whether the value of a binary64
    float is strictly greater than one half. *)
Lemma SFltb_half_spec (x : spec_float) :
  valid_binary 53 1024 x = true ->
  SFltb half x = true <-> exceeds_half (float_value x).
Proof.
  intros Hv. destruct x as [s | s | | s m e].
  - simpl. unfold Qlt; simpl. split; [discriminate | lia].
  - destruct s; simpl; split; auto; try discriminate; tauto.
  - simpl. split; [discriminate | tauto].
  - simpl in Hv. destruct s.
    + simpl. split; [discriminate |]. intros H.
      pose proof (scaled_positive m e) as Hp.
      unfold Qlt in *. simpl in *. lia.
    + unfold SFltb, SFcompare, half. cbn [float_value exceeds_half].
      rewrite <- (scaled_above_half m e Hv).
      destruct (match (-53 ?= e) with
                | Eq => Pos.compare_cont Eq 4503599627370496 m
                | Lt => Lt
                | Gt => Gt
                end); split; congruence.
Qed.

Lemma above_half_spec (c : cell) (v : number) :
  numeric c = true -> cell_number c = Some v ->
  above_half c = true <-> exceeds_half v.
Proof.
  destruct c as [x | z | s | b]; simpl; intros Hn Hv; try discriminate.
  - injection Hv as <-. now apply SFltb_half_spec.
  - injection Hv as <-. simpl. unfold Qlt; simpl. rewrite Z.ltb_lt. lia.
Qed.

End FloatFacts.

(** ** sklearn_example.ipynb: training and predicting *)

Module RunFacts.
Import Python Pandas Ray Air Conditions SklearnExample PandasFacts PrepareFacts LabelFacts.

Section Run.
Context {F : Framework}.

Lemma guard_spec (use_gpu : bool) :
  (use_gpu && negb (truthy cuMLRandomForestClassifier))%bool = true
  <-> use_gpu = true /\ cuMLRandomForestClassifier = None.
Proof.
  rewrite andb_true_iff, negb_true_iff.
  destruct cuMLRandomForestClassifier; simpl; intuition congruence.
Qed.

(** The guard fires before anything else is run. *)
Lemma train_sklearn_guarded (num_cpus : Z) (w : World) :
  cuMLRandomForestClassifier = None ->
  train_sklearn num_cpus true w = (Raised (RuntimeError cuML_missing_message), w).
Proof. unfold train_sklearn. intros ->. reflexivity. Qed.

(** Past the guard, a run of [train_sklearn] is a run of [prepare_data]
    followed by one trainer, one fit and one print. *)
Lemma train_sklearn_after (num_cpus : Z) (use_gpu : bool) (w w1 : World)
  (train valid test : Dataset) :
  (use_gpu && negb (truthy cuMLRandomForestClassifier))%bool = false ->
  prepare_data w = (Returned (train, valid, test), w1) ->
  exists trainer,
    train_sklearn num_cpus use_gpu w
    = (Returned (SklearnTrainer_fit (rng w1) trainer),
       mk_world (S (rng w1))
         (log w1 ++ [ Ev_SklearnTrainer trainer
                    ; Ev_fit_sklearn trainer
                    ; Ev_print (PrintMetrics (metrics (SklearnTrainer_fit (rng w1) trainer))) ])) /\
    sk_datasets trainer = [("train", train); ("valid", valid)] /\
    sk_estimator trainer
    = new_estimator (if use_gpu then cuml_RandomForestClassifier
                     else sklearn_RandomForestClassifier) /\
    sk_scaling_config trainer
    = [("trainer_resources",
        ConfigDict (if use_gpu then [("CPU", 1%Z); ("GPU", 1%Z)] else [("CPU", num_cpus)]))].
Proof.
  intros Hguard Hrun. unfold train_sklearn. rewrite Hguard.
  unfold bind at 1. rewrite Hrun. cbn [fst snd].
  destruct use_gpu.
  - unfold cuMLRandomForestClassifier in *.
    destruct cuml_installed; [| discriminate Hguard].
    eexists. split.
    { unfold call_class, new_SklearnTrainer, fit_sklearn, print, bind, emit, draw, ret.
      cbn [rng log fst snd]. rewrite <- !app_assoc. reflexivity. }
    cbn. repeat split.
  - eexists. split.
    { unfold call_class, new_SklearnTrainer, fit_sklearn, print, bind, emit, draw, ret.
      cbn [rng log fst snd]. rewrite <- !app_assoc. reflexivity. }
    cbn. repeat split.
Qed.

Lemma train_sklearn_propagates (num_cpus : Z) (use_gpu : bool) (w w1 : World) (e : Exn) :
  (use_gpu && negb (truthy cuMLRandomForestClassifier))%bool = false ->
  prepare_data w = (Raised e, w1) ->
  train_sklearn num_cpus use_gpu w = (Raised e, w1).
Proof.
  intros Hguard Hrun. unfold train_sklearn. rewrite Hguard.
  unfold bind at 1. now rewrite Hrun.
Qed.

(** A run of [predict_sklearn] is a run of [prepare_data] followed by one
    predictor built from the checkpoint, one prediction on the test
    dataset and, unless labelling raises, one print. *)
Lemma predict_sklearn_after (result : Result) (use_gpu : bool) (w w1 : World)
  (train valid test : Dataset) :
  prepare_data w = (Returned (train, valid, test), w1) ->
  let predictor := mk_BatchPredictor (checkpoint result) SklearnPredictor in
  let predictions :=
    BatchPredictor_predict (rng w1) predictor test (int_of_bool use_gpu) in
  let called :=
    log w1 ++ [ Ev_from_checkpoint (checkpoint result) SklearnPredictor
              ; Ev_predict predictor test (int_of_bool use_gpu) ] in
  predict_sklearn result use_gpu w
  = match map_batches to_labels predictions with
    | Returned mapped =>
        (Returned tt,
         mk_world (S (rng w1))
           (called ++ [Ev_print (PrintLabels "PREDICTED LABELS" (concat_blocks mapped))]))
    | Raised e => (Raised e, mk_world (S (rng w1)) called)
    end.
Proof.
  intros Hrun predictor predictions called. unfold predict_sklearn.
  unfold bind at 1. rewrite Hrun. cbn [fst snd].
  unfold from_checkpoint, predict, print, to_pandas, lift, bind, emit, draw, ret.
  cbn [rng log fst snd]. fold predictor. fold predictions.
  destruct (map_batches to_labels predictions); cbn [rng log];
    unfold called; rewrite <- !app_assoc; reflexivity.
Qed.

Lemma test_dataset_of_run (w w1 : World) (train valid test : Dataset) :
  prepare_data w = (Returned (train, valid, test), w1) -> test_dataset_of w = test.
Proof. unfold test_dataset_of. now intros ->. Qed.

(** Only the checkpoint of the result is read. *)
Lemma predict_sklearn_reads_checkpoint (r r' : Result) (use_gpu : bool) (w : World) :
  checkpoint r' = checkpoint r ->
  predict_sklearn r' use_gpu w = predict_sklearn r use_gpu w.
Proof. unfold predict_sklearn. now intros ->. Qed.

End Run.
End RunFacts.

Module SklearnClaims.
Import Python Pandas Ray Air Conditions SklearnExample UploadToWandb.
Import PandasFacts PrepareFacts LabelFacts RunFacts.

(** C1. With well-shaped data from the framework, [train_sklearn] raises
    if and only if [use_gpu] is true while [cuMLRandomForestClassifier] is
    [None]; it then raises the [RuntimeError] of its guard in the world it
    was called in: nothing has been loaded, split, stored or constructed. *)
Theorem train_sklearn_raises_iff_gpu_without_cuml {F : Framework}
  (num_cpus : Z) (use_gpu : bool) (w : World) :
  let b : Bunch := load_breast_cancer_data false in
  bunch_ok b = true ->
  positions_ok (List.length (data b))
    (split_choice (rng w) (List.length (data b)) (3 # 10)) = true ->
  ((exists e, fst (train_sklearn num_cpus use_gpu w) = Raised e)
   <-> use_gpu = true /\ cuMLRandomForestClassifier = None) /\
  (use_gpu = true -> cuMLRandomForestClassifier = None ->
   train_sklearn num_cpus use_gpu w = (Raised (RuntimeError cuML_missing_message), w)).
Proof.
  intros b Hb Hp. split.
  - split.
    + intros (e & He).
      destruct ((use_gpu && negb (truthy cuMLRandomForestClassifier))%bool) eqn:G.
      * now apply guard_spec.
      * pose proof (prepare_data_runs w Hb Hp) as Hrun. cbv zeta in Hrun.
        destruct (train_sklearn_after num_cpus use_gpu w _ _ _ _ G Hrun)
          as (trainer & Ht & _).
        rewrite Ht in He. discriminate He.
    + intros [-> Hnone]. rewrite (train_sklearn_guarded num_cpus w Hnone).
      eexists. reflexivity.
  - intros -> Hnone. now apply train_sklearn_guarded.
Qed.

(** The theorem above on the small framework, without cuML and with. *)
Lemma train_sklearn_raises_iff_gpu_without_cuml_witness :
  train_sklearn (F := Toy.toy false) 2%Z true Toy.start
  = (Raised (RuntimeError "cuML must be installed for GPU enabled sklearn estimators."),
     Toy.start)
  /\ ~ (exists e, fst (train_sklearn (F := Toy.toy true) 2%Z true Toy.start) = Raised e).
Proof.
  split.
  - apply (train_sklearn_raises_iff_gpu_without_cuml (F := Toy.toy false) 2%Z true Toy.start);
      vm_compute; reflexivity.
  - intros H.
    apply (train_sklearn_raises_iff_gpu_without_cuml (F := Toy.toy true) 2%Z true Toy.start)
      in H; [| vm_compute; reflexivity | vm_compute; reflexivity].
    destruct H as [_ H]. vm_compute in H. discriminate H.
Defined.

End SklearnClaims.

Module PredictClaims.
Import Python Pandas Ray Air Conditions SklearnExample.
Import PandasFacts PrepareFacts LabelFacts FloatFacts RunFacts.

(** C6. For every training result, [predict_sklearn] runs [prepare_data],
    then builds one predictor with [BatchPredictor.from_checkpoint] from the
    result's checkpoint and [SklearnPredictor], then applies it to the test
    dataset that run of [prepare_data] returned; a result with the same
    checkpoint gives the same run, whatever its other fields. *)
Theorem predict_sklearn_uses_only_the_checkpoint {F : Framework}
  (result other : Result) (use_gpu : bool) (w : World) :
  let b : Bunch := load_breast_cancer_data false in
  bunch_ok b = true ->
  positions_ok (List.length (data b))
    (split_choice (rng w) (List.length (data b)) (3 # 10)) = true ->
  exists train valid test w1 outcome w2 rest,
    prepare_data w = (Returned (train, valid, test), w1) /\
    predict_sklearn result use_gpu w = (outcome, w2) /\
    log w2
    = log w1
      ++ [ Ev_from_checkpoint (checkpoint result) SklearnPredictor
         ; Ev_predict (mk_BatchPredictor (checkpoint result) SklearnPredictor)
             test (int_of_bool use_gpu) ]
      ++ rest /\
    (forall e, In e rest -> exists table, e = Ev_print (PrintLabels "PREDICTED LABELS" table)) /\
    (checkpoint other = checkpoint result ->
     predict_sklearn other use_gpu w = predict_sklearn result use_gpu w).
Proof.
  intros b Hb Hp.
  pose proof (prepare_data_runs w Hb Hp) as Hrun. cbv zeta in Hrun.
  pose proof (predict_sklearn_after result use_gpu w _ _ _ _ Hrun) as Hpredict.
  cbv zeta in Hpredict.
  eexists _, _, _, _. 
  destruct (map_batches to_labels _) as [mapped | e] in Hpredict.
  - eexists _, _, [_]. split; [exact Hrun |]. split; [exact Hpredict |].
    split; [cbn [log]; rewrite <- app_assoc; reflexivity |].
    split; [| apply predict_sklearn_reads_checkpoint].
    intros e [<- | []]. eexists. reflexivity.
  - eexists _, _, []. split; [exact Hrun |]. split; [exact Hpredict |].
    split; [cbn [log]; rewrite app_nil_r; reflexivity |].
    split; [intros e' [] | apply predict_sklearn_reads_checkpoint].
Qed.

(** The theorem above on the small framework: two results that differ in
    their metrics and share their checkpoint. *)
Lemma predict_sklearn_uses_only_the_checkpoint_witness :
  predict_sklearn (F := Toy.toy false)
    (mk_result [("training_iteration", "2")] (Checkpoint_at "checkpoint_000000") None)
    false Toy.start
  = predict_sklearn (F := Toy.toy false) (Toy.toy_result 0) false Toy.start.
Proof.
  destruct (predict_sklearn_uses_only_the_checkpoint (F := Toy.toy false)
              (Toy.toy_result 0)
              (mk_result [("training_iteration", "2")] (Checkpoint_at "checkpoint_000000") None)
              false Toy.start)
    as (train & valid & test & w1 & outcome & w2 & rest & _ & _ & _ & _ & Hsame).
  - vm_compute. reflexivity.
  - vm_compute. reflexivity.
  - apply Hsame. reflexivity.
Defined.

(** C10. For every real-valued prediction frame the batch predictor
    returns (binary64 floats or integers, in blocks of one schema),
    [predict_sklearn] returns after printing a table that is the gathered
    predictions with every entry replaced by its label: the table holds
    only 0 and 1, and an entry is 1 exactly when the prediction it comes
    from is strictly greater than one half, 0 otherwise. *)
Theorem predicted_labels_are_zero_or_one {F : Framework}
  (result : Result) (use_gpu : bool) (w : World) :
  let b : Bunch := load_breast_cancer_data false in
  let predictions :=
    BatchPredictor_predict (S (rng w))
      (mk_BatchPredictor (checkpoint result) SklearnPredictor)
      (test_dataset_of w) (int_of_bool use_gpu) in
  bunch_ok b = true ->
  positions_ok (List.length (data b))
    (split_choice (rng w) (List.length (data b)) (3 # 10)) = true ->
  forallb real_valued predictions = true ->
  one_schema predictions = true ->
  exists table before w',
    predict_sklearn result use_gpu w = (Returned tt, w') /\
    log w' = before ++ [Ev_print (PrintLabels "PREDICTED LABELS" table)] /\
    table = frame_map label_cell (concat_blocks predictions) /\
    Forall (fun c => c = CInt 0 \/ c = CInt 1) (cells table) /\
    (forall c v, numeric c = true -> cell_number c = Some v ->
       (label_cell c = CInt 1 <-> exceeds_half v) /\
       (label_cell c = CInt 0 <-> ~ exceeds_half v)).
Proof.
  intros b predictions Hb Hp Hreal Hschema.
  pose proof (prepare_data_runs w Hb Hp) as Hrun. cbv zeta in Hrun.
  pose proof (predict_sklearn_after result use_gpu w _ _ _ _ Hrun) as Hpredict.
  cbv zeta in Hpredict. cbn [rng] in Hpredict.
  unfold predictions in Hreal, Hschema |- *.
  rewrite (test_dataset_of_run w _ _ _ _ Hrun) in Hreal, Hschema |- *.
  rewrite map_batches_to_labels in Hpredict.
  - rewrite (concat_blocks_labels _ Hschema) in Hpredict.
    eexists _, _, _. split; [exact Hpredict |]. split; [reflexivity |].
    split; [reflexivity |]. split; [apply cells_labels_of_binary |].
    intros c v Hn Hv. pose proof (above_half_spec c v Hn Hv) as Hspec.
    unfold label_cell. destruct (above_half c); simpl; split; split;
      intros H; try reflexivity; try discriminate; intuition congruence.
  - rewrite forallb_forall in Hreal |- *. intros df Hdf.
    now apply real_valued_comparable, Hreal.
Qed.

(** The theorem above on the small framework. *)
Lemma predicted_labels_are_zero_or_one_witness :
  exists before w',
    predict_sklearn (F := Toy.toy false) (Toy.toy_result 0) false Toy.start
    = (Returned tt, w') /\
    log w' = before ++ [Ev_print (PrintLabels "PREDICTED LABELS"
                                    (mk_frame [0; 1] [("predictions", [CInt 1; CInt 1])]))].
Proof.
  destruct (predicted_labels_are_zero_or_one (F := Toy.toy false)
              (Toy.toy_result 0) false Toy.start)
    as (table & before & w' & Hrun & Hlog & Htable & _).
  - vm_compute. reflexivity.
  - vm_compute. reflexivity.
  - vm_compute. reflexivity.
  - vm_compute. reflexivity.
  - exists before, w'. split; [exact Hrun |]. rewrite Hlog, Htable. reflexivity.
Defined.

End PredictClaims.

(** ** More on the frame that [prepare_data] builds *)

Module FrameProperties.
Import Python Pandas Ray Air Conditions Reading SklearnExample PandasFacts PrepareFacts.

Lemma nth_list_times_pair {A} (a b d : A) (k i : nat) :
  i < 2 * k ->
  nth i (list_times [a; b] k) d = if Nat.even i then a else b.
Proof.
  revert i. induction k as [| k IH]; intros i Hi; [lia |].
  destruct i as [| [| i]]; [reflexivity | reflexivity |].
  cbn [list_times app nth]. rewrite IH by lia. reflexivity.
Qed.

(** X1. The "random" categorical column is not random: it has one value
    per row, "A" on the rows at even positions and "B" on those at odd
    positions. *)
Theorem categorical_values_alternate (num_samples : nat) :
  List.length (categorical_values num_samples) = num_samples /\
  forall i, i < num_samples ->
    nth i (categorical_values num_samples) NaN
    = if Nat.even i then CStr "A" else CStr "B".
Proof.
  split; [apply length_categorical |].
  intros i Hi. unfold categorical_values.
  rewrite nth_firstn. apply Nat.ltb_lt in Hi as Hb. rewrite Hb.
  apply nth_list_times_pair. pose proof (ceil_half_covers num_samples). lia.
Qed.

Lemma nodup_names_spec (l : list string) : nodup_names l = true -> NoDup l.
Proof.
  induction l as [| x rest IH]; simpl; intros H; [constructor |].
  apply andb_true_iff in H as [Hx Hrest]. constructor; [| now apply IH].
  intros Hin. apply negb_true_iff in Hx.
  assert (existsb (String.eqb x) rest = true); [| congruence].
  apply existsb_exists. exists x. split; [exact Hin | apply String.eqb_refl].
Qed.

Lemma existsb_eqb_In (x : string) (l : list string) :
  existsb (String.eqb x) l = false -> ~ In x l.
Proof.
  intros H Hin. assert (existsb (String.eqb x) l = true); [| congruence].
  apply existsb_exists. exists x. split; [exact Hin | apply String.eqb_refl].
Qed.

Lemma find_column_columns_from data (labels : list string) (i j : nat) :
  NoDup labels -> j < List.length labels ->
  find_column (nth j labels "") (columns_from data i labels)
  = Some (array_column data (i + j)).
Proof.
  revert i j. induction labels as [| n rest IH]; intros i j Hnd Hj; simpl in Hj; [lia |].
  inversion Hnd as [| ? ? Hn Hrest]; subst.
  destruct j as [| j]; cbn [nth columns_from find_column].
  - rewrite String.eqb_refl. now rewrite Nat.add_0_r.
  - destruct (String.eqb n (nth j rest "")) eqn:E.
    + apply String.eqb_eq in E. exfalso. apply Hn. rewrite E. apply nth_In. lia.
    + rewrite IH by (assumption || lia). f_equal. f_equal. lia.
Qed.

Lemma has_column_false_names {A} label (df : Frame A) :
  ~ In label (names df) -> has_column label df = false.
Proof.
  intros H. destruct (has_column label df) eqn:E; [| reflexivity].
  apply has_column_In in E. contradiction.
Qed.

(** The columns of [dataset_frame] when no feature takes an added label. *)
Lemma columns_dataset_frame (b : Bunch) :
  ~ In "target" (feature_names b) ->
  ~ In "categorical_column" (feature_names b) ->
  columns (dataset_frame b)
  = columns_from (data b) 0 (feature_names b)
    ++ [ ("target", target b)
       ; ("categorical_column", categorical_values (List.length (data b))) ].
Proof.
  intros Ht Hc. unfold dataset_frame. cbv zeta.
  set (df0 := mk_frame (RangeIndex (List.length (data b)))
                (columns_from (data b) 0 (feature_names b))).
  assert (N0 : names df0 = feature_names b) by apply names_columns_from.
  assert (H1 : has_column "target" df0 = false)
    by (apply has_column_false_names; now rewrite N0).
  assert (C1 : columns (set_column "target" (target b) df0)
               = columns df0 ++ [("target", target b)])
    by now apply columns_set_column_new.
  assert (H2 : has_column "categorical_column" (set_column "target" (target b) df0) = false).
  { apply has_column_false_names. rewrite names_set_column, H1, N0.
    intros H. apply in_app_or in H as [H | [H | []]]; [contradiction | discriminate]. }
  rewrite (columns_set_column_new _ _ _ H2), C1. unfold df0. cbn [columns].
  now rewrite <- app_assoc.
Qed.

(** With distinct feature names that leave "target" and
    "categorical_column" free, [dataset_frame] has the features in their
    order, then the two added columns, and each reads back as the array
    it was built from. *)
Lemma dataset_frame_columns_read_back (b : Bunch) :
  features_ok b = true ->
  names (dataset_frame b) = feature_names b ++ ["target"; "categorical_column"] /\
  index (dataset_frame b) = RangeIndex (List.length (data b)) /\
  (forall j, j < List.length (feature_names b) ->
     column (nth j (feature_names b) "") (dataset_frame b)
     = Some (array_column (data b) j)) /\
  column "target" (dataset_frame b) = Some (target b) /\
  column "categorical_column" (dataset_frame b)
  = Some (categorical_values (List.length (data b))).
Proof.
  unfold features_ok. intros H.
  apply andb_true_iff in H as [H Hc]. apply andb_true_iff in H as [Hnd Ht].
  apply nodup_names_spec in Hnd.
  apply negb_true_iff, existsb_eqb_In in Ht.
  apply negb_true_iff, existsb_eqb_In in Hc.
  pose proof (columns_dataset_frame b Ht Hc) as C.
  split; [| split; [| split; [| split]]].
  - unfold names. rewrite C, map_app, names_columns_from. reflexivity.
  - unfold dataset_frame. cbv zeta. now rewrite !index_set_column.
  - intros j Hj. unfold column. rewrite C.
    rewrite WandbClaims.find_column_app_old
      by (rewrite names_columns_from; apply nth_In; exact Hj).
    now rewrite find_column_columns_from.
  - unfold column. rewrite C.
    rewrite WandbClaims.find_column_app_new by now rewrite names_columns_from.
    reflexivity.
  - unfold column. rewrite C.
    rewrite WandbClaims.find_column_app_new by now rewrite names_columns_from.
    reflexivity.
Qed.

(** X2. Building the frame loses nothing and mixes nothing up.  With
    arrays that fit together, distinct feature names that leave "target"
    and "categorical_column" free, and a split in range, [prepare_data]
    returns after handing [train_test_split] a frame whose rows are
    labelled 0 .. n-1 and whose columns are the features in their order,
    then "target", then "categorical_column"; in that frame feature [j]
    reads back as column [j] of the data array, "target" as the label
    array and "categorical_column" as the made-up values; and the two
    frames that are stored as the train and validation datasets carry the
    same column labels. *)
Theorem prepare_data_splits_the_arrays_as_loaded {F : Framework} (w : World) :
  let b : Bunch := load_breast_cancer_data false in
  let n := List.length (data b) in
  bunch_ok b = true ->
  positions_ok n (split_choice (rng w) n (3 # 10)) = true ->
  features_ok b = true ->
  exists full train_df test_df w',
    prepare_data w = (Returned ([train_df], [test_df], [without "target" test_df]), w') /\
    log w' = log w ++ prepare_calls full train_df test_df /\
    index full = RangeIndex n /\
    names full = feature_names b ++ ["target"; "categorical_column"] /\
    (forall j, j < List.length (feature_names b) ->
       column (nth j (feature_names b) "") full = Some (array_column (data b) j)) /\
    column "target" full = Some (target b) /\
    column "categorical_column" full = Some (categorical_values n) /\
    names train_df = names full /\
    names test_df = names full.
Proof.
  intros b n Hb Hp Hf.
  pose proof (prepare_data_runs w Hb Hp) as Hrun. cbv zeta in Hrun. fold b n in Hrun.
  destruct (dataset_frame_columns_read_back b Hf) as (Hnames & Hindex & Hfeature & Ht & Hc).
  exists (dataset_frame b). eexists _, _, _. split; [exact Hrun |].
  split; [reflexivity |]. split; [exact Hindex |]. split; [exact Hnames |].
  split; [exact Hfeature |]. split; [exact Ht |]. split; [exact Hc |].
  split; apply names_rows_at.
Qed.

(** The theorem above on the small framework: the frame handed to the
    split. *)
Lemma prepare_data_splits_the_arrays_as_loaded_witness :
  exists full,
    In (Ev_train_test_split full (3 # 10)) (log (snd (prepare_data (F := Toy.toy false) Toy.start))) /\
    names full = ["mean radius"; "mean texture"; "target"; "categorical_column"] /\
    column "mean texture" full
    = Some [CFloat Toy.two; CFloat Toy.quarter; CFloat Toy.one; CFloat Toy.two] /\
    column "target" full = Some [CInt 0; CInt 1; CInt 1; CInt 0].
Proof.
  destruct (prepare_data_splits_the_arrays_as_loaded (F := Toy.toy false) Toy.start)
    as (full & train_df & test_df & w' & Hrun & Hlog & _ & Hnames & Hfeature & Htarget & _).
  - vm_compute. reflexivity.
  - vm_compute. reflexivity.
  - vm_compute. reflexivity.
  - exists full. rewrite Hrun. cbn [snd]. rewrite Hlog.
    split; [right; left; reflexivity |].
    split; [exact Hnames |].
    split; [apply (Hfeature 1); simpl; lia | exact Htarget].
Defined.

End FrameProperties.

(** ** Every way [prepare_data] can end *)

Module PrepareOutcomes.
Import Python Pandas Ray Air Conditions Reading SklearnExample PandasFacts PrepareFacts.

Lemma names_ensure_valid_index (value_index : list nat) (df : DataFrame) :
  names (ensure_valid_index value_index df) = names df.
Proof.
  unfold ensure_valid_index. destruct (index df); [| reflexivity].
  destruct value_index; [reflexivity |].
  unfold names. cbn [columns]. now rewrite map_map.
Qed.

Lemma has_column_ensure_valid_index label (value_index : list nat) (df : DataFrame) :
  has_column label (ensure_valid_index value_index df) = has_column label df.
Proof. unfold has_column. now rewrite names_ensure_valid_index. Qed.

Lemma pd_DataFrame_cases data labels :
  pd_DataFrame data labels
  = Returned (mk_frame (RangeIndex (List.length data)) (columns_from data 0 labels))
  \/ pd_DataFrame data labels
     = Raised (ValueError "Shape of passed values does not match the columns").
Proof. unfold pd_DataFrame. destruct (forallb _ data); auto. Qed.

Lemma setitem_array_cases label values df :
  (exists df', setitem_array label values df = Returned df' /\
               has_column label df' = true /\
               forall l, has_column l df = true -> has_column l df' = true)
  \/ setitem_array label values df
     = Raised (ValueError "Length of values does not match length of index").
Proof.
  unfold setitem_array. cbv zeta. destruct (_ =? _); [left | now right].
  eexists. split; [reflexivity |]. split; [apply has_column_set_column |].
  intros l Hl. apply has_column_set_column_kept.
  now rewrite has_column_ensure_valid_index.
Qed.

Lemma setitem_series_cases label s df :
  (exists df', setitem_series label s df = Returned df' /\
               has_column label df' = true /\
               forall l, has_column l df = true -> has_column l df' = true)
  \/ setitem_series label s df
     = Raised (ValueError "cannot reindex on an axis with duplicate labels").
Proof.
  unfold setitem_series. cbv zeta.
  destruct (same_index _ _); [| destruct (nodupb _); [| now right]]; left;
    (eexists; split; [reflexivity |]; split; [apply has_column_set_column |];
     intros l Hl; apply has_column_set_column_kept;
     now rewrite has_column_ensure_valid_index).
Qed.

Lemma iloc_cases positions df :
  iloc positions df = Returned (rows_at positions df)
  \/ iloc positions df = Raised (IndexError "positional indexers are out-of-bounds").
Proof. unfold iloc. destruct (forallb _ positions); auto. Qed.

Lemma has_column_rows_at label positions df :
  has_column label (rows_at positions df) = has_column label df.
Proof. unfold has_column. now rewrite names_rows_at. Qed.

Lemma has_column_without label df : has_column label (without label df) = false.
Proof.
  apply FrameProperties.has_column_false_names. rewrite names_without, filter_In.
  intros [_ H]. rewrite String.eqb_refl in H. discriminate H.
Qed.

Section Outcomes.
Context {F : Framework}.

(** The exceptions [prepare_data] can raise. *)
Lemma prepare_data_raises_kind (w w' : World) (e : Exn) :
  prepare_data w = (Raised e, w') ->
  (exists m, e = ValueError m) \/ (exists m, e = IndexError m).
Proof.
  unfold prepare_data, load_breast_cancer, train_test_split, from_pandas.
  unfold bind, emit, ret, lift, draw. cbn [fst snd rng log].
  set (b := load_breast_cancer_data false : Bunch).
  destruct (pd_DataFrame_cases (data b) (feature_names b)) as [-> | ->];
    [| intros [= <- _]; left; eexists; reflexivity].
  set (df0 := mk_frame _ _).
  destruct (setitem_array_cases "target" (target b) df0)
    as [(df1 & -> & Ht1 & _) | ->];
    [| intros [= <- _]; left; eexists; reflexivity].
  destruct (setitem_series_cases "categorical_column"
              (pd_Series (categorical_values (len df1))) df1)
    as [(df2 & -> & _ & Hkept) | ->];
    [| intros [= <- _]; left; eexists; reflexivity].
  specialize (Hkept "target" Ht1).
  set (chosen := split_choice (rng w) (len df2) (3 # 10)).
  destruct (iloc_cases (fst chosen) df2) as [-> | ->];
    [| intros [= <- _]; right; eexists; reflexivity].
  destruct (iloc_cases (snd chosen) df2) as [-> | ->];
    [| intros [= <- _]; right; eexists; reflexivity].
  cbn [fst snd]. rewrite drop_ok by now rewrite has_column_rows_at.
  discriminate.
Qed.

(** X3. However the framework answers, [prepare_data] never raises
    [KeyError]: the "target" column it drops from the validation frame is
    always there.  And whenever it returns, it returns three one-block
    datasets, the third being the second without "target", the first two
    both holding "target" and "categorical_column" under the column labels
    of the frame that was split, after one load, one split and three
    stores. *)
Theorem prepare_data_never_misses_the_target_column (w : World) :
  match prepare_data w with
  | (Returned (train, valid, test), w') =>
      exists full train_df test_df,
        train = [train_df] /\ valid = [test_df] /\
        test = [without "target" test_df] /\
        has_column "target" train_df = true /\
        has_column "target" test_df = true /\
        has_column "categorical_column" train_df = true /\
        has_column "categorical_column" test_df = true /\
        has_column "target" (without "target" test_df) = false /\
        names train_df = names full /\ names test_df = names full /\
        w' = mk_world (S (rng w)) (log w ++ prepare_calls full train_df test_df)
  | (Raised e, w') =>
      (forall key, e <> KeyError key) /\
      existsb is_from_pandas (log w') = existsb is_from_pandas (log w)
  end.
Proof.
  unfold prepare_data, load_breast_cancer, train_test_split, from_pandas.
  unfold bind, emit, ret, lift, draw. cbn [fst snd rng log].
  set (b := load_breast_cancer_data false : Bunch).
  destruct (pd_DataFrame_cases (data b) (feature_names b)) as [-> | ->];
    [| split; [discriminate | cbn [log]; rewrite existsb_app; apply orb_false_r]].
  set (df0 := mk_frame _ _).
  destruct (setitem_array_cases "target" (target b) df0)
    as [(df1 & -> & Ht1 & _) | ->];
    [| split; [discriminate | cbn [log]; rewrite existsb_app; apply orb_false_r]].
  destruct (setitem_series_cases "categorical_column"
              (pd_Series (categorical_values (len df1))) df1)
    as [(df2 & -> & Hc2 & Hkept) | ->];
    [| split; [discriminate | cbn [log]; rewrite existsb_app; apply orb_false_r]].
  specialize (Hkept "target" Ht1).
  set (chosen := split_choice (rng w) (len df2) (3 # 10)).
  destruct (iloc_cases (fst chosen) df2) as [-> | ->];
    [| split; [discriminate | cbn [log]; rewrite !existsb_app; cbn; now rewrite !orb_false_r]].
  destruct (iloc_cases (snd chosen) df2) as [-> | ->];
    [| split; [discriminate | cbn [log]; rewrite !existsb_app; cbn; now rewrite !orb_false_r]].
  cbn [fst snd]. rewrite drop_ok by now rewrite has_column_rows_at.
  exists df2, (rows_at (fst chosen) df2), (rows_at (snd chosen) df2).
  rewrite !has_column_rows_at, !names_rows_at.
  repeat (split; [first [reflexivity | assumption | apply has_column_without] |]).
  cbn [rng log]. unfold prepare_calls. rewrite <- !app_assoc. reflexivity.
Qed.

End Outcomes.
End PrepareOutcomes.

(** ** Rows after the split *)

Module RowProperties.
Import Python Pandas Ray Air Conditions Reading SklearnExample PandasFacts PrepareFacts.

Lemma position_of_seq (start n l : nat) :
  l < n -> position_of (start + l) (seq start n) = Some l.
Proof.
  revert start l. induction n as [| n IH]; intros start l Hl; [lia |].
  cbn [seq position_of]. destruct l as [| l].
  - now rewrite Nat.add_0_r, Nat.eqb_refl.
  - replace (start =? start + S l) with false by (symmetry; apply Nat.eqb_neq; lia).
    replace (start + S l) with (S start + l) by lia.
    rewrite IH by lia. reflexivity.
Qed.

Lemma position_of_found (l : nat) (labels : list nat) (k : nat) :
  position_of l labels = Some k -> k < List.length labels /\ nth k labels 0 = l.
Proof.
  revert k. induction labels as [| l' rest IH]; intros k; simpl; [discriminate |].
  destruct (l' =? l) eqn:E.
  - intros [= <-]. apply Nat.eqb_eq in E. split; [lia | exact E].
  - destruct (position_of l rest) as [k' |]; simpl; [| discriminate].
    intros [= <-]. destruct (IH k' eq_refl). split; [lia | assumption].
Qed.

Lemma position_of_In (l : nat) (labels : list nat) :
  In l labels -> exists k, position_of l labels = Some k.
Proof.
  induction labels as [| l' rest IH]; simpl; [intros [] |].
  intros H. destruct (l' =? l) eqn:E; [now exists 0 |].
  destruct H as [-> | H]; [now rewrite Nat.eqb_refl in E |].
  destruct (IH H) as (k & ->). now exists (S k).
Qed.

Lemma index_rows_at (positions : list nat) (df : DataFrame) (n : nat) :
  index df = RangeIndex n ->
  forallb (fun p => p <? n) positions = true ->
  index (rows_at positions df) = positions.
Proof.
  intros Hi Hp. unfold rows_at. cbn [index]. rewrite Hi.
  rewrite forallb_forall in Hp.
  rewrite <- (map_id positions) at 2. apply map_ext_in. intros p Hin.
  apply Hp, Nat.ltb_lt in Hin. unfold RangeIndex. now rewrite seq_nth.
Qed.

(** A row taken by position is the row of that position. *)
Lemma loc_rows_at (positions : list nat) (df : DataFrame) (n l : nat) :
  index df = RangeIndex n ->
  forallb (fun p => p <? n) positions = true ->
  In l positions ->
  loc l (rows_at positions df) = loc l df.
Proof.
  intros Hi Hp Hin. unfold loc.
  rewrite (index_rows_at positions df n Hi Hp).
  destruct (position_of_In l positions Hin) as (k & Hk). rewrite Hk.
  apply position_of_found in Hk as [Hlt Hnth].
  rewrite forallb_forall in Hp. apply Hp, Nat.ltb_lt in Hin.
  rewrite Hi. unfold RangeIndex.
  pose proof (position_of_seq 0 n l Hin) as Hseq. cbn [Nat.add] in Hseq.
  rewrite Hseq. f_equal.
  unfold rows_at. cbn [columns]. rewrite map_map. apply map_ext. intros c.
  cbn [fst snd]. f_equal.
  rewrite nth_indep with (d' := nth 0 (snd c) NaN) by now rewrite length_map.
  rewrite (map_nth (fun p => nth p (snd c) NaN)). now rewrite Hnth.
Qed.

Lemma filter_map_labelled {A B} (keep : string -> bool) (h : string * A -> B)
  (cols : list (string * A)) :
  filter (fun c => keep (fst c)) (map (fun c => (fst c, h c)) cols)
  = map (fun c => (fst c, h c)) (filter (fun c => keep (fst c)) cols).
Proof.
  induction cols as [| c rest IH]; simpl; [reflexivity |].
  destruct (keep (fst c)); simpl; now rewrite IH.
Qed.

Lemma loc_without (label : string) (l : nat) (df : DataFrame) :
  loc l (without label df)
  = option_map (filter (fun c => negb (String.eqb (fst c) label))) (loc l df).
Proof.
  unfold loc, without. cbn [index columns].
  destruct (position_of l (index df)) as [k |]; [| reflexivity]. simpl. f_equal.
  symmetry. apply (filter_map_labelled (fun n => negb (String.eqb n label))
                     (fun c => nth k (snd c) NaN)).
Qed.

(** X6. The split moves whole rows: with arrays that fit and positions in
    range, the row labels of the train and validation frames are the
    positions the split chose, in its order, and every row of either frame
    reads, column by column, as the row of that label in the frame before
    the split, so features, label and category stay together; a row of the
    test frame is the validation row without its "target" entry. *)
Theorem split_keeps_rows_whole {F : Framework} (w : World) :
  let b : Bunch := load_breast_cancer_data false in
  let chosen := split_choice (rng w) (List.length (data b)) (3 # 10) in
  bunch_ok b = true ->
  positions_ok (List.length (data b)) chosen = true ->
  exists train_df valid_df test_df w',
    prepare_data w = (Returned ([train_df], [valid_df], [test_df]), w') /\
    index train_df = fst chosen /\
    index valid_df = snd chosen /\
    index test_df = snd chosen /\
    (forall l, In l (fst chosen) -> loc l train_df = loc l (dataset_frame b)) /\
    (forall l, In l (snd chosen) -> loc l valid_df = loc l (dataset_frame b)) /\
    (forall l, loc l test_df
               = option_map (filter (fun c => negb (String.eqb (fst c) "target")))
                   (loc l valid_df)).
Proof.
  intros b chosen Hb Hp.
  pose proof (prepare_data_runs w Hb Hp) as Hrun. cbv zeta in Hrun.
  fold b in Hrun. fold chosen in Hrun.
  apply andb_true_iff in Hp as [Htrain Hvalid].
  assert (Hi : index (dataset_frame b) = RangeIndex (List.length (data b)))
    by (unfold dataset_frame; cbv zeta; now rewrite !index_set_column).
  eexists _, _, _, _. split; [exact Hrun |].
  split; [now apply index_rows_at with (n := List.length (data b)) |].
  split; [now apply index_rows_at with (n := List.length (data b)) |].
  split; [unfold without; cbn [index];
          now apply index_rows_at with (n := List.length (data b)) |].
  split; [intros l Hl; now apply loc_rows_at with (n := List.length (data b)) |].
  split; [intros l Hl; now apply loc_rows_at with (n := List.length (data b)) |].
  intros l. apply loc_without.
Qed.

(** The theorem above on the small framework: validation row 2 is row 2
    of the data. *)
Lemma split_keeps_rows_whole_witness :
  exists train_df valid_df test_df w',
    prepare_data (F := Toy.toy false) Toy.start
    = (Returned ([train_df], [valid_df], [test_df]), w') /\
    loc 2 valid_df
    = Some [ ("mean radius", CFloat Toy.three_quarters); ("mean texture", CFloat Toy.one)
           ; ("target", CInt 1); ("categorical_column", CStr "A") ].
Proof.
  destruct (split_keeps_rows_whole (F := Toy.toy false) Toy.start)
    as (train_df & valid_df & test_df & w' & Hrun & _ & _ & _ & _ & Hvalid & _).
  - vm_compute. reflexivity.
  - vm_compute. reflexivity.
  - exists train_df, valid_df, test_df, w'. split; [exact Hrun |].
    rewrite (Hvalid 2) by (vm_compute; auto). reflexivity.
Defined.

End RowProperties.

(** ** Every way [train_sklearn] can end, and what it trains on *)

Module TrainProperties.
Import Python Pandas Ray Air Conditions Reading SklearnExample.
Import PandasFacts PrepareFacts PrepareOutcomes RunFacts.

Section Train.
Context {F : Framework}.

(** The trainer [train_sklearn] constructs past its guard. *)
Lemma train_sklearn_trainer (num_cpus : Z) (use_gpu : bool) (w w1 : World)
  (train valid test : Dataset) :
  (use_gpu && negb (truthy cuMLRandomForestClassifier))%bool = false ->
  prepare_data w = (Returned (train, valid, test), w1) ->
  let trainer :=
    mk_SklearnTrainer
      (new_estimator (if use_gpu then cuml_RandomForestClassifier
                      else sklearn_RandomForestClassifier))
      "target"
      [("train", train); ("valid", valid)]
      (Chain [OrdinalEncoder ["categorical_column"];
              StandardScaler ["mean radius"; "mean texture"]])
      5%Z
      [("trainer_resources",
        ConfigDict (if use_gpu then [("CPU", 1%Z); ("GPU", 1%Z)] else [("CPU", num_cpus)]))] in
  train_sklearn num_cpus use_gpu w
  = (Returned (SklearnTrainer_fit (rng w1) trainer),
     mk_world (S (rng w1))
       (log w1 ++ [ Ev_SklearnTrainer trainer
                  ; Ev_fit_sklearn trainer
                  ; Ev_print (PrintMetrics (metrics (SklearnTrainer_fit (rng w1) trainer))) ])).
Proof.
  intros Hguard Hrun. cbv zeta. unfold train_sklearn. rewrite Hguard.
  unfold bind at 1. rewrite Hrun. cbn [fst snd].
  destruct use_gpu.
  - unfold cuMLRandomForestClassifier in *.
    destruct cuml_installed; [| discriminate Hguard].
    unfold call_class, new_SklearnTrainer, fit_sklearn, print, bind, emit, draw, ret.
    cbn [rng log fst snd]. rewrite <- !app_assoc. reflexivity.
  - unfold call_class, new_SklearnTrainer, fit_sklearn, print, bind, emit, draw, ret.
    cbn [rng log fst snd]. rewrite <- !app_assoc. reflexivity.
Qed.

(** X7. However the framework answers, [train_sklearn] returns the result
    of fitting one trainer on the first two datasets of its own
    [prepare_data] run, or raises the [RuntimeError] of its guard in an
    untouched world, or passes on the [ValueError] or [IndexError] of
    [prepare_data] with the world that left.  It never raises [TypeError]:
    [cuMLRandomForestClassifier()] is only called when the name is a
    class. *)
Theorem train_sklearn_ends_in_three_ways (num_cpus : Z) (use_gpu : bool) (w : World) :
  match train_sklearn num_cpus use_gpu w with
  | (Returned result, w') =>
      exists train valid test w1 trainer,
        prepare_data w = (Returned (train, valid, test), w1) /\
        result = SklearnTrainer_fit (rng w1) trainer /\
        sk_datasets trainer = [("train", train); ("valid", valid)] /\
        (use_gpu = true -> cuMLRandomForestClassifier = Some cuml_RandomForestClassifier) /\
        w' = mk_world (S (rng w1))
               (log w1 ++ [ Ev_SklearnTrainer trainer
                          ; Ev_fit_sklearn trainer
                          ; Ev_print (PrintMetrics (metrics result)) ])
  | (Raised e, w') =>
      (use_gpu = true /\ cuMLRandomForestClassifier = None /\
       e = RuntimeError cuML_missing_message /\ w' = w)
      \/
      (prepare_data w = (Raised e, w') /\
       ((exists m, e = ValueError m) \/ (exists m, e = IndexError m)))
  end.
Proof.
  destruct ((use_gpu && negb (truthy cuMLRandomForestClassifier))%bool) eqn:G.
  - apply guard_spec in G as [-> Hnone].
    rewrite (train_sklearn_guarded num_cpus w Hnone). left. auto.
  - destruct (prepare_data w) as [[[[train valid] test] | e] w1] eqn:Hrun.
    + rewrite (train_sklearn_trainer num_cpus use_gpu w w1 train valid test G Hrun).
      eexists train, valid, test, w1, _.
      split; [reflexivity |]. split; [reflexivity |]. split; [reflexivity |].
      split; [| reflexivity].
      intros ->. simpl in G. apply negb_false_iff in G.
      unfold cuMLRandomForestClassifier in *. now destruct cuml_installed.
    + rewrite (train_sklearn_propagates num_cpus use_gpu w w1 e G Hrun).
      right. split; [reflexivity |]. exact (prepare_data_raises_kind w w1 e Hrun).
Qed.

Lemma has_feature_dataset_frame (b : Bunch) (label : string) :
  In label (feature_names b) -> has_column label (dataset_frame b) = true.
Proof.
  intros H. unfold dataset_frame. cbv zeta.
  do 2 apply has_column_set_column_kept.
  apply has_column_In. unfold names. cbn [columns]. now rewrite names_columns_from.
Qed.

Lemma has_categorical_dataset_frame (b : Bunch) :
  has_column "categorical_column" (dataset_frame b) = true.
Proof. unfold dataset_frame. cbv zeta. apply has_column_set_column. Qed.

(** X8. The trainer is only told about columns its data has: with arrays
    that fit, positions in range and the two scaled features among the
    feature names, the label column, the column the encoder is given and
    the columns the scaler is given are columns of every block of both the
    "train" and the "valid" dataset of the trainer that is fitted; the
    trainer asks for a GPU exactly when [use_gpu] is true. *)
Theorem trainer_columns_exist (num_cpus : Z) (use_gpu : bool) (w : World) :
  let b : Bunch := load_breast_cancer_data false in
  bunch_ok b = true ->
  positions_ok (List.length (data b))
    (split_choice (rng w) (List.length (data b)) (3 # 10)) = true ->
  (use_gpu && negb (truthy cuMLRandomForestClassifier))%bool = false ->
  (existsb (String.eqb "mean radius") (feature_names b)
   && existsb (String.eqb "mean texture") (feature_names b))%bool = true ->
  exists trainer w',
    train_sklearn num_cpus use_gpu w
    = (Returned (SklearnTrainer_fit (S (rng w)) trainer), w') /\
    In (Ev_fit_sklearn trainer) (log w') /\
    map fst (sk_datasets trainer) = ["train"; "valid"] /\
    (forall label name ds df,
       In label (sk_label_column trainer :: preprocessor_columns (sk_preprocessor trainer)) ->
       In (name, ds) (sk_datasets trainer) -> In df ds ->
       has_column label df = true) /\
    (In "GPU" (flat_map (fun kv => match snd kv with
                                   | ConfigDict d => map fst d
                                   | ConfigInt _ => []
                                   end) (sk_scaling_config trainer))
     <-> use_gpu = true).
Proof.
  intros b Hb Hp Hguard Hfeatures.
  pose proof (prepare_data_runs w Hb Hp) as Hrun. cbv zeta in Hrun. fold b in Hrun.
  pose proof (train_sklearn_trainer num_cpus use_gpu w _ _ _ _ Hguard Hrun) as Ht.
  cbv zeta in Ht. cbn [rng log] in Ht.
  eexists _, _. split; [exact Ht |].
  split; [cbn [log]; apply in_or_app; right; right; now left |].
  split; [reflexivity |]. split.
  - cbn [sk_label_column sk_preprocessor sk_datasets preprocessor_columns flat_map app].
    apply andb_true_iff in Hfeatures as [Hr Ht'].
    assert (Hall : forall label,
               In label ["target"; "categorical_column"; "mean radius"; "mean texture"] ->
               has_column label (dataset_frame b) = true).
    { intros label [<- | [<- | [<- | [<- | []]]]].
      - apply has_target_dataset_frame.
      - apply has_categorical_dataset_frame.
      - apply has_feature_dataset_frame. apply existsb_exists in Hr as (x & Hx & E).
        apply String.eqb_eq in E. now subst.
      - apply has_feature_dataset_frame. apply existsb_exists in Ht' as (x & Hx & E).
        apply String.eqb_eq in E. now subst. }
    intros label name ds df Hl Hds Hdf.
    destruct Hds as [[= <- <-] | [[= <- <-] | []]]; destruct Hdf as [<- | []];
      rewrite has_column_rows_at; now apply Hall.
  - cbn [sk_scaling_config flat_map snd map fst app].
    destruct use_gpu; simpl; split; intros H; try reflexivity; try discriminate;
      intuition discriminate.
Qed.

End Train.

(** The theorem above on the small framework. *)
Lemma trainer_columns_exist_witness :
  exists trainer w',
    train_sklearn (F := Toy.toy false) 2%Z false Toy.start
    = (Returned (Toy.toy_result 1), w') /\
    In (Ev_fit_sklearn trainer) (log w') /\
    forall name ds df, In (name, ds) (sk_datasets trainer) -> In df ds ->
                       has_column (sk_label_column trainer) df = true.
Proof.
  destruct (trainer_columns_exist (F := Toy.toy false) 2%Z false Toy.start)
    as (trainer & w' & Hrun & Hfit & _ & Hcols & _).
  - vm_compute. reflexivity.
  - vm_compute. reflexivity.
  - vm_compute. reflexivity.
  - vm_compute. reflexivity.
  - exists trainer, w'. split; [exact Hrun |]. split; [exact Hfit |].
    intros name ds df Hds Hdf.
    apply (Hcols (sk_label_column trainer) name ds df); [now left | assumption ..].
Defined.

End TrainProperties.

(** ** Labelling, on every frame *)

Module LabelProperties.
Import Python Pandas Ray Air Conditions Reading SklearnExample.
Import PandasFacts PrepareFacts LabelFacts FloatFacts.

Lemma forallb_map {A B} (f : A -> B) (p : B -> bool) (l : list A) :
  forallb p (map f l) = forallb (fun a => p (f a)) l.
Proof. induction l as [| a rest IH]; simpl; [reflexivity | now rewrite IH]. Qed.

(** When every element returns or raises one and the same exception, the
    whole returns exactly when every element does. *)
Lemma all_returned_uniform {A B} (fn : A -> Outcome B) (g : A -> B) (ok : A -> bool)
  (e0 : Exn) (l : list A) :
  (forall a, In a l -> fn a = if ok a then Returned (g a) else Raised e0) ->
  all_returned fn l = if forallb ok l then Returned (map g l) else Raised e0.
Proof.
  induction l as [| a rest IH]; intros H; simpl; [reflexivity |].
  rewrite (H a) by now left. destruct (ok a); simpl; [| reflexivity].
  rewrite IH by (intros; apply H; now right).
  destruct (forallb ok rest); reflexivity.
Qed.

Lemma gt_half_total (c : cell) :
  gt_half c = if comparable c then Returned (above_half c) else Raised not_comparable.
Proof. destruct c; reflexivity. Qed.

Lemma forallb_concat {A} (p : A -> bool) (ls : list (list A)) :
  forallb p (List.concat ls) = forallb (forallb p) ls.
Proof.
  induction ls as [| l rest IH]; simpl; [reflexivity |].
  now rewrite forallb_app, IH.
Qed.

(** [to_labels] on any frame. *)
Lemma to_labels_total (df : DataFrame) :
  to_labels df
  = if comparable_frame df then Returned (labels_of df) else Raised not_comparable.
Proof.
  unfold to_labels, gt_0_5, frame_traverse.
  rewrite all_returned_uniform with
    (g := fun c => (fst c, map above_half (snd c)))
    (ok := fun c => forallb comparable (snd c)) (e0 := not_comparable).
  - unfold comparable_frame, cells. rewrite forallb_concat, forallb_map.
    destruct (forallb _ (columns df)); [| reflexivity]. simpl.
    unfold as_object, astype_int, labels_of, frame_map. cbn [index columns].
    f_equal. f_equal. rewrite !map_map. apply map_ext. intros c. cbn [fst snd].
    rewrite !map_map. reflexivity.
  - intros c _.
    rewrite all_returned_uniform with (g := above_half) (ok := comparable)
      (e0 := not_comparable) by (intros; apply gt_half_total).
    destruct (forallb comparable (snd c)); reflexivity.
Qed.

Lemma map_batches_to_labels_total (ds : Dataset) :
  map_batches to_labels ds
  = if forallb comparable_frame ds then Returned (map labels_of ds)
    else Raised not_comparable.
Proof.
  unfold map_batches. apply all_returned_uniform. intros df _. apply to_labels_total.
Qed.

Lemma comparable_label_cell (c : cell) : comparable (label_cell c) = true.
Proof. reflexivity. Qed.

Lemma comparable_labels_of (df : DataFrame) : comparable_frame (labels_of df) = true.
Proof.
  unfold comparable_frame, labels_of. rewrite cells_frame_map, forallb_map.
  apply forallb_forall. intros c _. reflexivity.
Qed.

Lemma label_cell_idempotent (c : cell) : label_cell (label_cell c) = label_cell c.
Proof. unfold label_cell. destruct (above_half c); reflexivity. Qed.

(** X9. On any frame, the function given to [map_batches] either returns
    a frame of the same row labels, the same column labels in the same
    order and as many values in each column, all of them 0 or 1, or, when
    and only when some cell is a string, raises [TypeError]. *)
Theorem to_labels_keeps_shape_or_rejects_strings (df : DataFrame) :
  match to_labels df with
  | Returned out =>
      index out = index df /\
      names out = names df /\
      map (fun c => List.length (snd c)) (columns out)
      = map (fun c => List.length (snd c)) (columns df) /\
      Forall (fun c => c = CInt 0 \/ c = CInt 1) (cells out) /\
      (forall s, ~ In (CStr s) (cells df))
  | Raised e =>
      e = not_comparable /\ exists s, In (CStr s) (cells df)
  end.
Proof.
  rewrite to_labels_total. destruct (comparable_frame df) eqn:E.
  - split; [reflexivity |].
    split; [unfold labels_of; apply names_frame_map |].
    split; [unfold labels_of, frame_map; cbn [columns]; rewrite map_map;
            apply map_ext; intros c; cbn [snd]; apply length_map |].
    split; [apply cells_labels_of_binary |].
    intros s Hs. unfold comparable_frame in E. rewrite forallb_forall in E.
    specialize (E _ Hs). discriminate E.
  - split; [reflexivity |].
    unfold comparable_frame in E.
    assert (H : existsb (fun c => negb (comparable c)) (cells df) = true).
    { induction (cells df) as [| c rest IH]; simpl in *; [discriminate |].
      destruct (comparable c); simpl in *; [now apply IH | reflexivity]. }
    apply existsb_exists in H as (c & Hc & Hn).
    destruct c; try discriminate Hn. now exists s.
Qed.

(** X10. Labelling twice is labelling once: the function given to
    [map_batches], followed by itself, gives what it gives alone, whether
    that is a frame of labels or its [TypeError]. *)
Theorem to_labels_idempotent (df : DataFrame) :
  obind (to_labels df) to_labels = to_labels df.
Proof.
  rewrite to_labels_total. destruct (comparable_frame df); [| reflexivity].
  cbn [obind]. rewrite to_labels_total, comparable_labels_of. f_equal.
  unfold labels_of, frame_map. cbn [index columns]. f_equal.
  rewrite map_map. apply map_ext. intros c. cbn [fst snd]. f_equal.
  rewrite map_map. apply map_ext. intros x. apply label_cell_idempotent.
Qed.

Lemma cell_at_frame_map {A B} (f : A -> B) (k i : nat) (df : Frame A) :
  cell_at k i (frame_map f df) = option_map f (cell_at k i df).
Proof.
  unfold cell_at, frame_map. cbn [columns]. rewrite nth_error_map.
  destruct (nth_error (columns df) k) as [c |]; [| reflexivity].
  cbn [option_map snd]. apply nth_error_map.
Qed.

(** X11. The labels follow the order of the predictions.  When the
    function given to [map_batches] returns, every numeric prediction with
    a finite value has an integer in its place, 1 exactly when the value is
    above one half and 0 otherwise; so of two such predictions, anywhere in
    the frame, the one with the greater or equal value never gets the
    smaller label. *)
Theorem to_labels_follows_the_order_of_the_predictions
  (df out : DataFrame) (k i k' j : nat) (c1 c2 : cell) (q1 q2 : Q) :
  to_labels df = Returned out ->
  cell_at k i df = Some c1 -> cell_at k' j df = Some c2 ->
  numeric c1 = true -> numeric c2 = true ->
  cell_number c1 = Some (Finite q1) -> cell_number c2 = Some (Finite q2) ->
  Qle_bool q1 q2 = true ->
  exists l1 l2 : Z,
    cell_at k i out = Some (CInt l1) /\
    cell_at k' j out = Some (CInt l2) /\
    (l1 = 1%Z <-> (1 # 2 < q1)%Q) /\ (l1 = 0%Z <-> ~ (1 # 2 < q1)%Q) /\
    (l2 = 1%Z <-> (1 # 2 < q2)%Q) /\ (l2 = 0%Z <-> ~ (1 # 2 < q2)%Q) /\
    (l1 <= l2)%Z.
Proof.
  intros Hout H1 H2 N1 N2 V1 V2 Hle.
  rewrite to_labels_total in Hout.
  destruct (comparable_frame df); [| discriminate Hout].
  injection Hout as <-. unfold labels_of.
  exists (int_of_bool (above_half c1)), (int_of_bool (above_half c2)).
  rewrite !cell_at_frame_map, H1, H2.
  split; [reflexivity |]. split; [reflexivity |].
  pose proof (above_half_spec c1 _ N1 V1) as S1.
  pose proof (above_half_spec c2 _ N2 V2) as S2.
  cbn [exceeds_half] in S1, S2. apply Qle_bool_iff in Hle.
  assert (Hmono : above_half c1 = true -> above_half c2 = true).
  { intros A1. apply S2. apply Qlt_le_trans with q1; [now apply S1 | exact Hle]. }
  destruct (above_half c1) eqn:A1, (above_half c2) eqn:A2; cbn [int_of_bool];
    try (specialize (Hmono eq_refl); discriminate Hmono);
    repeat split; try lia; try discriminate; try tauto;
    intros H; try (apply S1 in H); try (apply S2 in H); try discriminate H;
    intuition congruence.
Qed.

(** The theorem above on a frame of two columns: 0.25 and 0.75 in the
    first, 1 in the second. *)
Lemma to_labels_follows_the_order_of_the_predictions_witness :
  exists out,
    to_labels (mk_frame [0; 1]
                 [ ("predictions", [CFloat Toy.quarter; CFloat Toy.three_quarters])
                 ; ("votes", [CInt 0; CInt 1]) ])
    = Returned out /\
    cell_at 0 1 out = Some (CInt 1) /\ cell_at 1 1 out = Some (CInt 1).
Proof.
  set (df := mk_frame [0; 1]
               [ ("predictions", [CFloat Toy.quarter; CFloat Toy.three_quarters])
               ; ("votes", [CInt 0; CInt 1]) ]).
  destruct (to_labels df) as [out | e] eqn:E; [| vm_compute in E; discriminate E].
  exists out. split; [reflexivity |].
  destruct (to_labels_follows_the_order_of_the_predictions df out 0 1 1 1
              (CFloat Toy.three_quarters) (CInt 1)
              (6755399441055744 # 9007199254740992) 1 E)
    as (l1 & l2 & H1 & H2 & L1 & _ & L2 & _ & _).
  - vm_compute. reflexivity.
  - vm_compute. reflexivity.
  - vm_compute. reflexivity.
  - vm_compute. reflexivity.
  - vm_compute. reflexivity.
  - vm_compute. reflexivity.
  - vm_compute. reflexivity.
  - assert (E1 : l1 = 1%Z) by (apply L1; reflexivity).
    assert (E2 : l2 = 1%Z) by (apply L2; reflexivity).
    subst l1 l2. split; [exact H1 | exact H2].
Defined.

End LabelProperties.

(** ** What the notebook functions end in *)

Module GuardClaims.
Import Python Pandas Ray Air Conditions Reading SklearnExample UploadToWandb.
Import PandasFacts PrepareFacts LabelFacts RunFacts LabelProperties.






End GuardClaims.

(** ** Predicting, and the cells of the notebooks *)

Module CellProperties.
Import Python Pandas Ray Air Conditions Reading SklearnExample UploadToWandb Cells.
Import PandasFacts PrepareFacts PrepareOutcomes LabelFacts RunFacts TrainProperties.
Import LabelProperties.

Section Run.
Context {F : Framework}.

(** X12. Predictions that hold a string stop [predict_sklearn]: with
    data that lets [prepare_data] through, it raises the [TypeError] of the
    comparison after the predictor has been built and has predicted, and
    prints nothing. *)
Theorem predict_sklearn_rejects_string_predictions
  (result : Result) (use_gpu : bool) (w : World) :
  let b : Bunch := load_breast_cancer_data false in
  let chosen := split_choice (rng w) (List.length (data b)) (3 # 10) in
  let predictor := mk_BatchPredictor (checkpoint result) SklearnPredictor in
  let predictions :=
    BatchPredictor_predict (S (rng w)) predictor (test_dataset_of w) (int_of_bool use_gpu) in
  bunch_ok b = true ->
  positions_ok (List.length (data b)) chosen = true ->
  forallb comparable_frame predictions = false ->
  predict_sklearn result use_gpu w
  = (Raised not_comparable,
     mk_world (S (S (rng w)))
       (log w
        ++ prepare_calls (dataset_frame b)
             (rows_at (fst chosen) (dataset_frame b)) (rows_at (snd chosen) (dataset_frame b))
        ++ [ Ev_from_checkpoint (checkpoint result) SklearnPredictor
           ; Ev_predict predictor (test_dataset_of w) (int_of_bool use_gpu) ])).
Proof.
  intros b chosen predictor predictions Hb Hp Hbad.
  pose proof (prepare_data_runs w Hb Hp) as Hrun. cbv zeta in Hrun.
  fold b in Hrun. fold chosen in Hrun.
  rewrite (predict_sklearn_after result use_gpu w _ _ _ _ Hrun). cbv zeta.
  unfold predictions in Hbad. rewrite (test_dataset_of_run w _ _ _ _ Hrun) in *.
  cbn [rng log]. fold predictor. rewrite map_batches_to_labels_total, Hbad.
  unfold prepare_calls. rewrite <- !app_assoc. reflexivity.
Qed.

(** X13. Run one after the other, the two cells of the sklearn notebook
    fit on one split and predict on another: with data that lets both
    [prepare_data] runs through, the first split is drawn from the random
    source as found, the second two draws later; one
    [RandomForestClassifier] trainer is fitted whether or not cuML is
    installed; the predictor is built from the checkpoint of that fit; it
    predicts on the test rows of the second split; and the run ends by
    printing the labels or by the [TypeError] of the comparison. *)
Theorem sklearn_cells_fit_then_predict_on_a_fresh_split (w : World) :
  let b : Bunch := load_breast_cancer_data false in
  let n := List.length (data b) in
  let full := dataset_frame b in
  let first := split_choice (rng w) n (3 # 10) in
  let second := split_choice (S (S (rng w))) n (3 # 10) in
  bunch_ok b = true ->
  positions_ok n first = true ->
  positions_ok n second = true ->
  exists trainer outcome w' rest,
    sklearn_cells w = (outcome, w') /\
    sk_estimator trainer = new_estimator sklearn_RandomForestClassifier /\
    sk_datasets trainer
    = [("train", [rows_at (fst first) full]); ("valid", [rows_at (snd first) full])] /\
    log w'
    = log w
      ++ prepare_calls full (rows_at (fst first) full) (rows_at (snd first) full)
      ++ [ Ev_SklearnTrainer trainer
         ; Ev_fit_sklearn trainer
         ; Ev_print (PrintMetrics (metrics (SklearnTrainer_fit (S (rng w)) trainer))) ]
      ++ prepare_calls full (rows_at (fst second) full) (rows_at (snd second) full)
      ++ [ Ev_from_checkpoint (checkpoint (SklearnTrainer_fit (S (rng w)) trainer))
             SklearnPredictor
         ; Ev_predict
             (mk_BatchPredictor (checkpoint (SklearnTrainer_fit (S (rng w)) trainer))
                SklearnPredictor)
             [without "target" (rows_at (snd second) full)] 0%Z ]
      ++ rest /\
    rng w' = 4 + rng w /\
    ((outcome = Returned tt /\ exists table, rest = [Ev_print (PrintLabels "PREDICTED LABELS" table)])
     \/ (outcome = Raised not_comparable /\ rest = [])).
Proof.
  intros b n full first second Hb H1 H2.
  pose proof (prepare_data_runs w Hb H1) as Hrun1. cbv zeta in Hrun1.
  fold b n full first in Hrun1.
  pose proof (train_sklearn_trainer 2%Z false w _ _ _ _ eq_refl Hrun1) as Htrain.
  cbv zeta in Htrain. cbn [rng log] in Htrain.
  set (trainer := mk_SklearnTrainer _ _ _ _ _ _) in Htrain.
  set (w2 := mk_world (S (S (rng w))) _) in Htrain.
  assert (H2' : positions_ok (List.length (data (load_breast_cancer_data false : Bunch)))
                  (split_choice (rng w2) (List.length (data (load_breast_cancer_data false : Bunch)))
                     (3 # 10)) = true) by exact H2.
  pose proof (prepare_data_runs w2 Hb H2') as Hrun2. cbv zeta in Hrun2.
  fold b n full in Hrun2. cbn [rng] in Hrun2. fold second in Hrun2.
  pose proof (predict_sklearn_after (SklearnTrainer_fit (S (rng w)) trainer) false
                w2 _ _ _ _ Hrun2) as Hpredict.
  cbv zeta in Hpredict. cbn [rng log int_of_bool] in Hpredict.
  unfold sklearn_cells. unfold bind at 1. rewrite Htrain.
  rewrite map_batches_to_labels_total in Hpredict.
  destruct (forallb comparable_frame _) in Hpredict.
  - eexists trainer, _, _, [_]. split; [exact Hpredict |].
    split; [reflexivity |]. split; [reflexivity |].
    split; [| split; [reflexivity | left; split; [reflexivity | eexists; reflexivity]]].
    cbn [log]. unfold w2, prepare_calls. cbn [log]. rewrite <- !app_assoc. reflexivity.
  - eexists trainer, _, _, []. split; [exact Hpredict |].
    split; [reflexivity |]. split; [reflexivity |].
    split; [| split; [reflexivity | right; split; reflexivity]].
    cbn [log]. unfold w2, prepare_calls. cbn [log]. rewrite <- !app_assoc. reflexivity.
Qed.

(** With labels that can be aligned, [get_train_dataset] returns one
    block that has a "target" column. *)
Lemma get_train_dataset_returns (w : World) :
  alignable (load_breast_cancer_data true) = true ->
  exists df,
    get_train_dataset w
    = (Returned [df],
       mk_world (rng w) (log w ++ [Ev_load_breast_cancer true; Ev_from_pandas df])) /\
    has_column "target" df = true.
Proof.
  intros Ha. unfold get_train_dataset, load_breast_cancer, from_pandas.
  unfold bind, emit, ret, lift. cbn [fst snd rng log].
  set (b := load_breast_cancer_data true : FrameBunch) in *.
  pose proof (setitem_series_returns "target" (frame_target b) (frame_data b) Ha) as Hret.
  destruct (setitem_series_cases "target" (frame_target b) (frame_data b))
    as [(df & E & Ht & _) | E]; rewrite E in *; [| discriminate Hret].
  exists df. cbn [rng log]. rewrite <- app_assoc. auto.
Qed.

(** X14. However the framework answers, [get_train_dataset] either
    returns one block that has a "target" column and every column label of
    the loaded frame, after one load and one store, or raises [ValueError]
    having only loaded the data, and that only when the label series
    repeats a row label and is not on the rows of the frame.  It never
    stores a dataset without labels. *)
Theorem get_train_dataset_ends_in_two_ways (w : World) :
  let b : FrameBunch := load_breast_cancer_data true in
  match get_train_dataset w with
  | (Returned ds, w') =>
      exists df,
        ds = [df] /\
        has_column "target" df = true /\
        (forall label, has_column label (frame_data b) = true -> has_column label df = true) /\
        w' = mk_world (rng w) (log w ++ [Ev_load_breast_cancer true; Ev_from_pandas df])
  | (Raised e, w') =>
      e = ValueError "cannot reindex on an axis with duplicate labels" /\
      alignable b = false /\
      w' = mk_world (rng w) (log w ++ [Ev_load_breast_cancer true])
  end.
Proof.
  intros b. unfold get_train_dataset, load_breast_cancer, from_pandas.
  unfold bind, emit, ret, lift. cbn [fst snd rng log]. fold b.
  pose proof (setitem_series_returns "target" (frame_target b) (frame_data b)) as Hret.
  destruct (setitem_series_cases "target" (frame_target b) (frame_data b))
    as [(df & E & Ht & Hkept) | E]; rewrite E in *.
  - exists df. cbn [rng log]. rewrite <- app_assoc. auto.
  - split; [reflexivity |]. split; [| reflexivity].
    unfold alignable. destruct (_ || _)%bool; [| reflexivity].
    specialize (Hret eq_refl). discriminate Hret.
Qed.

(** X15. The cell of the wandb notebook trains on what it loaded: when
    the label series can be aligned on the frame, the cell returns the
    result of fitting one trainer whose only dataset, "train", is the one
    block [get_train_dataset] stored, whose label column is a column of that
    block, and whose one callback logs to the project "ray_air_example";
    the calls are one load, one store, one trainer and one fit. *)
Theorem wandb_cell_trains_on_the_loaded_frame (w : World) :
  alignable (load_breast_cancer_data true) = true ->
  exists df trainer,
    wandb_cell w
    = (Returned (XGBoostTrainer_fit (rng w) trainer),
       mk_world (S (rng w))
         (log w ++ [ Ev_load_breast_cancer true; Ev_from_pandas df
                   ; Ev_XGBoostTrainer trainer; Ev_fit_xgboost trainer ])) /\
    xgb_datasets trainer = [("train", [df])] /\
    has_column (xgb_label_column trainer) df = true /\
    callbacks (xgb_run_config trainer) = [WandbLoggerCallback "ray_air_example" true].
Proof.
  intros Ha. destruct (get_train_dataset_returns w Ha) as (df & Hrun & Ht).
  unfold wandb_cell. cbv zeta. unfold bind at 1. rewrite Hrun.
  exists df. eexists. split.
  { unfold train_model, new_XGBoostTrainer, fit_xgboost, bind, emit, draw, ret.
    cbn [rng log]. rewrite <- !app_assoc. reflexivity. }
  cbn. auto.
Qed.

(** X16. A frame that already has a column called "target" does not get
    a second one: when the column labels of the loaded frame are distinct,
    one of them is "target" and the label series is on the rows of the
    frame, [get_train_dataset] stores a frame with the number, the order
    and the labels of the columns as loaded, in which "target" reads as
    the labels and every other column as it was. *)
Theorem get_train_dataset_overwrites_the_one_target_column (w : World) :
  let b : FrameBunch := load_breast_cancer_data true in
  nodup_names (names (frame_data b)) = true ->
  same_index (s_index (frame_target b)) (index (frame_data b)) = true ->
  has_column "target" (frame_data b) = true ->
  exists df,
    get_train_dataset w
    = (Returned [df],
       mk_world (rng w) (log w ++ [Ev_load_breast_cancer true; Ev_from_pandas df])) /\
    index df = index (frame_data b) /\
    names df = names (frame_data b) /\
    count_occ string_dec (names df) "target" = 1 /\
    column "target" df = Some (s_values (frame_target b)) /\
    (forall label, label <> "target" -> column label df = column label (frame_data b)).
Proof.
  intros b Hnd Hi Ht. apply same_index_eq in Hi.
  exists (set_column "target" (s_values (frame_target b)) (frame_data b)).
  split.
  { unfold get_train_dataset, load_breast_cancer, from_pandas.
    unfold bind, emit, ret, lift. cbn [fst snd rng log]. fold b.
    rewrite (setitem_series_ok _ _ _ Hi). cbn [rng log].
    rewrite <- app_assoc. reflexivity. }
  split; [apply index_set_column |].
  split; [now rewrite names_set_column, Ht |].
  split.
  { rewrite names_set_column, Ht.
    apply FrameProperties.nodup_names_spec in Hnd.
    apply NoDup_count_occ'; [exact Hnd | now apply has_column_In]. }
  unfold set_column. rewrite Ht. unfold column. cbn [columns].
  apply has_column_In in Ht. unfold names in Ht. clear Hnd. split.
  - induction (columns (frame_data b)) as [| [n d] rest IH]; [destruct Ht |].
    cbn [map fst find_column]. destruct (String.eqb n "target") eqn:E.
    + cbn [find_column fst]. now rewrite E.
    + cbn [find_column fst]. rewrite E. apply IH.
      destruct Ht as [Ht | Ht]; [| exact Ht].
      cbn [fst] in Ht. subst n. now rewrite String.eqb_refl in E.
  - intros label Hl. clear Ht.
    induction (columns (frame_data b)) as [| [n d] rest IH]; [reflexivity |].
    cbn [map fst find_column]. destruct (String.eqb n "target") eqn:E.
    + apply String.eqb_eq in E. subst n. cbn [find_column fst].
      destruct (String.eqb "target" label) eqn:E'; [| exact IH].
      apply String.eqb_eq in E'. congruence.
    + cbn [find_column fst]. now rewrite IH.
Qed.

End Run.

(** The theorems above on variants of the small framework. *)
Lemma predict_sklearn_rejects_string_predictions_witness :
  exists w',
    predict_sklearn (F := Variants.toy_with Toy.toy_bunch Toy.toy_frame_bunch
                            Toy.toy_split Variants.naming_predict)
      (Toy.toy_result 0) false Toy.start
    = (Raised not_comparable, w') /\
    existsb is_print (log w') = false.
Proof.
  eexists. split.
  - apply (predict_sklearn_rejects_string_predictions
             (F := Variants.toy_with Toy.toy_bunch Toy.toy_frame_bunch
                     Toy.toy_split Variants.naming_predict)
             (Toy.toy_result 0) false Toy.start); vm_compute; reflexivity.
  - vm_compute. reflexivity.
Defined.

Lemma sklearn_cells_fit_then_predict_on_a_fresh_split_witness :
  exists trainer w',
    sklearn_cells (F := Variants.toy_with Toy.toy_bunch Toy.toy_frame_bunch
                          Variants.rotating_split Toy.toy_predict) Toy.start
    = (Returned tt, w') /\
    map (fun d => map index (snd d)) (sk_datasets trainer) = [[[1; 2; 3]]; [[0]]] /\
    In (Ev_predict (mk_BatchPredictor (Checkpoint_at "checkpoint_000000") SklearnPredictor)
          [mk_frame [2] [ ("mean radius", [CFloat Toy.three_quarters])
                        ; ("mean texture", [CFloat Toy.one])
                        ; ("categorical_column", [CStr "A"]) ]] 0%Z)
       (log w').
Proof.
  destruct (sklearn_cells_fit_then_predict_on_a_fresh_split
              (F := Variants.toy_with Toy.toy_bunch Toy.toy_frame_bunch
                      Variants.rotating_split Toy.toy_predict) Toy.start)
    as (trainer & outcome & w' & rest & Hrun & _ & Hds & Hlog & _ & Hend).
  - vm_compute. reflexivity.
  - vm_compute. reflexivity.
  - vm_compute. reflexivity.
  - exists trainer, w'. split; [| split].
    + rewrite Hrun. f_equal. destruct Hend as [[-> _] | [-> _]]; [reflexivity |].
      vm_compute in Hrun. discriminate Hrun.
    + rewrite Hds. vm_compute. reflexivity.
    + rewrite Hlog. apply in_or_app. right. apply in_or_app. right.
      apply in_or_app. right. apply in_or_app. right. apply in_or_app. left.
      right. left. vm_compute. reflexivity.
Defined.

Lemma wandb_cell_trains_on_the_loaded_frame_witness :
  exists trainer w',
    wandb_cell (F := Toy.toy false) Toy.start = (Returned (Toy.toy_result 0), w') /\
    callbacks (xgb_run_config trainer) = [WandbLoggerCallback "ray_air_example" true].
Proof.
  destruct (wandb_cell_trains_on_the_loaded_frame (F := Toy.toy false) Toy.start)
    as (df & trainer & Hrun & _ & _ & Hcb).
  - vm_compute. reflexivity.
  - exists trainer. eexists. split; [exact Hrun | exact Hcb].
Defined.

Lemma get_train_dataset_overwrites_the_one_target_column_witness :
  exists df w',
    get_train_dataset (F := Variants.toy_with Toy.toy_bunch Variants.labelled_frame_bunch
                              Toy.toy_split Toy.toy_predict) Toy.start
    = (Returned [df], w') /\
    names df = ["target"; "mean texture"] /\
    column "target" df = Some [CInt 0; CInt 1; CInt 1].
Proof.
  destruct (get_train_dataset_overwrites_the_one_target_column
              (F := Variants.toy_with Toy.toy_bunch Variants.labelled_frame_bunch
                      Toy.toy_split Toy.toy_predict) Toy.start)
    as (df & Hrun & _ & Hnames & _ & Htarget & _).
  - vm_compute. reflexivity.
  - vm_compute. reflexivity.
  - vm_compute. reflexivity.
  - exists df. eexists. split; [exact Hrun |]. split; [exact Hnames | exact Htarget].
Defined.

End CellProperties.

(** ** The requirements under every Python version *)

Module MarkerProperties.
Import Requirements Markers.

Example applies_gym_range_3_10 :
  applies "gym>=0.21.0,<0.24.0; python_version >= '3.7'" 3 10 = Some true.
Proof. reflexivity. Qed.

Example applies_gym_atari_3_10 :
  applies "gym[atari]==0.19.0; python_version < '3.7'" 3 10 = Some false.
Proof. reflexivity. Qed.

Example applies_gym_atari_2_7 :
  applies "gym[atari]==0.19.0; python_version < '3.7'" 2 7 = Some true.
Proof. reflexivity. Qed.

Example applies_without_marker : applies "pybullet==3.2.0" 3 6 = Some true.
Proof. reflexivity. Qed.

(** Below, at and above Python 3.7, whatever the numbers. *)
Lemma python_version_cases (major minor : nat) :
  (version_compare [major; minor] [3; 7] = Lt)
  \/ (version_compare [major; minor] [3; 7] <> Lt).
Proof. destruct (version_compare [major; minor] [3; 7]); auto; right; discriminate. Qed.

Lemma below_3_7_spec (major minor : nat) :
  below_3_7 major minor = ((major <? 3) || ((major =? 3) && (minor <? 7)))%bool.
Proof.
  unfold below_3_7. cbn [version_compare against_zeros].
  destruct (Nat.compare_spec major 3) as [-> | H | H].
  - simpl. destruct (Nat.compare_spec minor 7) as [-> | H | H].
    + reflexivity.
    + apply Nat.ltb_lt in H. now rewrite H.
    + symmetry. apply Nat.ltb_ge. lia.
  - apply Nat.ltb_lt in H. now rewrite H.
  - replace (major <? 3) with false by (symmetry; apply Nat.ltb_ge; lia).
    replace (major =? 3) with false by (symmetry; apply Nat.eqb_neq; lia).
    reflexivity.
Qed.

(** Every marker of the file asks whether Python is below 3.7. *)
Lemma applies_by_comparison (major minor : nat) (l : string) :
  In l requirements ->
  applies l major minor
  = if below_3_7 major minor then applies l 3 6 else applies l 3 7.
Proof.
  intros Hl. unfold below_3_7. unfold requirements in Hl. simpl in Hl.
  repeat (destruct Hl as [<- | Hl];
          [ cbv -[version_compare];
            destruct (version_compare [major; minor] [3; 7]); reflexivity | ]).
  destruct Hl.
Qed.

Lemma applicable_by_comparison (major minor : nat) :
  applicable requirements major minor
  = if below_3_7 major minor then applicable requirements 3 6
    else applicable requirements 3 7.
Proof.
  pose proof (applies_by_comparison major minor) as H.
  revert H. generalize requirements as lines.
  induction lines as [| l rest IH]; intros H.
  - now destruct (below_3_7 major minor).
  - cbn [applicable]. rewrite (H l) by now left.
    rewrite IH by (intros; apply H; now right).
    destruct (below_3_7 major minor); reflexivity.
Qed.

Lemma unreadable_by_comparison (major minor : nat) :
  unreadable requirements major minor
  = if below_3_7 major minor then unreadable requirements 3 6
    else unreadable requirements 3 7.
Proof.
  pose proof (applies_by_comparison major minor) as H.
  revert H. generalize requirements as lines.
  induction lines as [| l rest IH]; intros H.
  - now destruct (below_3_7 major minor).
  - cbn [unreadable]. rewrite (H l) by now left.
    rewrite IH by (intros; apply H; now right).
    destruct (below_3_7 major minor); reflexivity.
Qed.

(** X17. Under every Python version [major.minor] each marker of the
    requirements list can be read, no distribution is required twice, and
    exactly one of the two gym lines applies: the [gym[atari]==0.19.0] pin
    below Python 3.7, the [gym>=0.21.0,<0.24.0] range from 3.7 on;
    pettingzoo is required from 3.7 on only. *)
Theorem requirements_apply_once (major minor : nat) :
  let old_python := ((major <? 3) || ((major =? 3) && (minor <? 7)))%bool in
  unreadable requirements major minor = [] /\
  NoDup (names_of (applicable requirements major minor)) /\
  filter (fun l => match requirement_name l with
                   | Some n => String.eqb n "gym"
                   | None => false
                   end)
         (applicable requirements major minor)
  = [ if old_python then "gym[atari]==0.19.0; python_version < '3.7'"
      else "gym>=0.21.0,<0.24.0; python_version >= '3.7'" ] /\
  (In "pettingzoo" (names_of (applicable requirements major minor))
   <-> old_python = false).
Proof.
  cbv zeta. rewrite <- below_3_7_spec.
  rewrite unreadable_by_comparison, applicable_by_comparison.
  destruct (below_3_7 major minor).
  - split; [reflexivity |].
    split; [apply FrameProperties.nodup_names_spec; reflexivity |].
    split; [reflexivity |].
    split; [| discriminate]. vm_compute. intuition discriminate.
  - split; [reflexivity |].
    split; [apply FrameProperties.nodup_names_spec; reflexivity |].
    split; [reflexivity |].
    split; [reflexivity |]. intros _. vm_compute. tauto.
Qed.

End MarkerProperties.

(** ** What the library rule globs *)

Module GlobProperties.
Import Build Markers Glob.

Lemma some_suffix_spec {A} (matches : list A -> bool) (l : list A) :
  some_suffix matches l = true
  <-> exists pre suf, l = pre ++ suf /\ matches suf = true.
Proof.
  induction l as [| a rest IH]; cbn [some_suffix]; rewrite orb_true_iff.
  - split.
    + intros [H | H]; [| discriminate]. now exists [], [].
    + intros (pre & suf & E & H). left.
      symmetry in E. apply app_eq_nil in E as [_ ->]. exact H.
  - rewrite IH. split.
    + intros [H | (pre & suf & -> & H)].
      * now exists [], (a :: rest).
      * now exists (a :: pre), suf.
    + intros (pre & suf & E & H). destruct pre as [| b pre]; simpl in E.
      * left. now subst.
      * right. injection E as -> ->. now exists pre, suf.
Qed.

(** A pattern without [*] matches itself only. *)
Lemma literal_matches (lit s : list ascii) :
  ~ In "*"%char lit ->
  segment_matches lit s = true <-> s = lit.
Proof.
  revert s. induction lit as [| p lit IH]; intros s Hno; cbn [segment_matches].
  - destruct s; split; congruence.
  - destruct (Ascii.eqb p "*") eqn:E.
    + apply Ascii.eqb_eq in E. exfalso. apply Hno. now left.
    + destruct s as [| c rest]; [split; discriminate |].
      rewrite andb_true_iff, Ascii.eqb_eq, IH by (intros H; apply Hno; now right).
      split; [intros [-> ->]; reflexivity | intros [= -> ->]; auto].
Qed.

Lemma list_ascii_of_string_app (a b : string) :
  list_ascii_of_string (a ++ b) = list_ascii_of_string a ++ list_ascii_of_string b.
Proof. induction a as [| c a IH]; simpl; [reflexivity | now rewrite IH]. Qed.

(** The pattern [*.py] matches the names that end in [.py]. *)
Lemma star_py_matches (file : string) :
  segment_matches (list_ascii_of_string "*.py") (list_ascii_of_string file) = true
  <-> exists stem, file = (stem ++ ".py")%string.
Proof.
  change (list_ascii_of_string "*.py") with ("*"%char :: list_ascii_of_string ".py").
  cbn [segment_matches]. rewrite Ascii.eqb_refl, some_suffix_spec. split.
  - intros (pre & suf & E & H).
    apply literal_matches in H;
      [| simpl; intros [H' | [H' | [H' | []]]]; discriminate H'].
    subst suf. exists (string_of_list_ascii pre).
    rewrite <- (string_of_list_ascii_of_string file), E.
    rewrite <- (list_ascii_of_string_of_list_ascii pre) at 1.
    rewrite <- list_ascii_of_string_app.
    now rewrite string_of_list_ascii_of_string.
  - intros (stem & ->). exists (list_ascii_of_string stem), (list_ascii_of_string ".py").
    split; [apply list_ascii_of_string_app | reflexivity].
Qed.

Lemma recursive_py_matches (path : list string) :
  glob_matches "**/*.py" path = true
  <-> exists front file stem, path = front ++ [file] /\ file = (stem ++ ".py")%string.
Proof.
  unfold glob_matches.
  change (split_on "/" "**/*.py") with ["**"; "*.py"].
  cbn [path_matches]. change (String.eqb "**" "**") with true. cbv iota.
  rewrite some_suffix_spec. split.
  - intros (front & suf & -> & H). destruct suf as [| file [| ? ?]].
    + discriminate H.
    + change (String.eqb "*.py" "**") with false in H. cbv iota in H.
      apply andb_true_iff in H as [H _]. apply star_py_matches in H as (stem & ->).
      now exists front, (stem ++ ".py")%string, stem.
    + change (String.eqb "*.py" "**") with false in H. cbv iota in H.
      apply andb_true_iff in H as [_ H]. discriminate H.
  - intros (front & file & stem & -> & ->). exists front, [(stem ++ ".py")%string].
    split; [reflexivity |].
    change (String.eqb "*.py" "**") with false. cbv iota.
    apply andb_true_iff. split; [| reflexivity].
    apply star_py_matches. now exists stem.
Qed.

Lemma tests_py_matches (path : list string) :
  glob_matches "tests/*.py" path = true
  <-> exists file stem, path = ["tests"; file] /\ file = (stem ++ ".py")%string.
Proof.
  unfold glob_matches.
  change (split_on "/" "tests/*.py") with ["tests"; "*.py"].
  cbn [path_matches].
  change (String.eqb "tests" "**") with false.
  change (String.eqb "*.py" "**") with false. cbv iota.
  destruct path as [| dir [| file [| ? ?]]].
  - split; [discriminate | intros (? & ? & [=] & _)].
  - rewrite andb_false_r. split; [discriminate | intros (? & ? & [=] & _)].
  - rewrite !andb_true_iff. split.
    + intros (Hd & Hf & _).
      apply literal_matches in Hd;
        [| simpl; intros [H' | [H' | [H' | [H' | [H' | []]]]]]; discriminate H'].
      apply star_py_matches in Hf as (stem & ->).
      exists (stem ++ ".py")%string, stem. split; [| reflexivity].
      f_equal. rewrite <- (string_of_list_ascii_of_string dir), Hd. reflexivity.
    + intros (f & stem & [= -> ->] & ->). split; [reflexivity |].
      split; [| reflexivity]. apply star_py_matches. now exists stem.
  - rewrite !andb_false_r. split; [discriminate | intros (? & ? & [=] & _)].
Qed.

(** X18. The sources of [train_lib] are the Python files of the package
    but for the test files: a file is one of them exactly when its name
    ends in [.py] and it does not lie directly in [tests/]; so every
    source of every [py_test] under [examples/] is a source of the library
    that all the tests depend on, and no source under [tests/] is. *)
Theorem train_lib_holds_the_examples_not_the_tests :
  (forall path : string,
     library_has train_lib path = true
     <-> exists front file stem,
           split_on "/" path = front ++ [file] /\
           file = (stem ++ ".py")%string /\
           front <> ["tests"]) /\
  (forall t, In t (py_tests manifest) ->
     forall s, In s (srcs t) -> library_has train_lib s = under "examples/" s).
Proof.
  split.
  - intros path. unfold library_has, train_lib, in_glob. cbn [existsb].
    rewrite !orb_false_r, andb_true_iff, negb_true_iff.
    rewrite recursive_py_matches. split.
    + intros ((front & file & stem & E & Hf) & Hno).
      exists front, file, stem. split; [exact E |]. split; [exact Hf |].
      intros ->. assert (H : glob_matches "tests/*.py" (split_on "/" path) = true);
        [| congruence].
      apply tests_py_matches. rewrite E. now exists file, stem.
    + intros (front & file & stem & E & Hf & Hfront).
      split; [now exists front, file, stem |].
      destruct (glob_matches "tests/*.py" (split_on "/" path)) eqn:G; [| reflexivity].
      apply tests_py_matches in G as (f & st & G & _). rewrite E in G.
      exfalso. apply Hfront.
      change ["tests"; f] with (["tests"] ++ [f]) in G.
      now apply app_inj_tail in G as [-> _].
  - intros t Ht s Hs.
    assert (H : forallb (fun t => forallb (fun s => Bool.eqb (library_has train_lib s)
                                                     (under "examples/" s)) (srcs t))
                  (py_tests manifest) = true) by (vm_compute; reflexivity).
    rewrite forallb_forall in H. specialize (H t Ht).
    rewrite forallb_forall in H. specialize (H s Hs).
    now apply Bool.eqb_prop in H.
Qed.

Example library_has_a_nested_test_helper :
  library_has train_lib "tests/util/helpers.py" = true.
Proof. reflexivity. Qed.

Example library_lacks_a_test : library_has train_lib "tests/test_gpu.py" = false.
Proof. reflexivity. Qed.

Example library_lacks_a_text_file : library_has train_lib "examples/README.md" = false.
Proof. reflexivity. Qed.

End GlobProperties.
